(** * hiffi_dwnld: the queue producer and the download worker

    A shallow embedding of [a_q_put_videos.py] (the producer) and
    [q_get_videos.py] (the consumer / worker) together with the properties
    of the error classifier, the metadata store and the acknowledgment
    policy.

    Conventions of the embedding.
    - Python [str] values are [string]s; messages and urls are taken to be
      ASCII, so [str.lower] and [str.strip] act character by character.
    - Values read from JSON are [pyval]s; a Python [dict] is an association
      list in insertion order.
    - A Python exception is an [exn]: its class, its optional [msg]
      attribute, its [str()] rendering and its [__cause__].
    - Code that may raise returns a [result].
    - The body of a delivery is a [payload], bytes that may or may not
      decode; [on_message] is the callback from the decoded text on and
      [on_message_callback] is the callback from its first line.
    - The broker channel, the clock and the two files are fields of a
      [world] record threaded through the handlers. *)

From Stdlib Require Import Bool List ZArith Lia Ascii String.
Import ListNotations.

#[local] Set Warnings "-register-all".

Local Open Scope string_scope.
Local Open Scope list_scope.

(** ** Python string primitives *)

Module PyStr.

(** [c.lower()] on an ASCII character. *)
Definition lower_char (c : ascii) : ascii :=
  let n := nat_of_ascii c in
  if (65 <=? n)%nat && (n <=? 90)%nat then ascii_of_nat (n + 32) else c.

(** [s.lower()]. *)
Fixpoint lower (s : string) : string :=
  match s with
  | EmptyString => EmptyString
  | String c s' => String (lower_char c) (lower s')
  end.

(** [pat in s]. *)
Fixpoint contains (pat s : string) : bool :=
  if prefix pat s then true
  else match s with
       | EmptyString => false
       | String _ s' => contains pat s'
       end.

(** The characters [str.strip()] removes: tab, line feed, vertical tab,
    form feed, carriage return, the four separators 0x1c-0x1f and space. *)
Definition is_space (c : ascii) : bool :=
  let n := nat_of_ascii c in
  ((9 <=? n)%nat && (n <=? 13)%nat)
  || ((28 <=? n)%nat && (n <=? 31)%nat)
  || (n =? 32)%nat.

Fixpoint lstrip (s : string) : string :=
  match s with
  | EmptyString => EmptyString
  | String c s' => if is_space c then lstrip s' else s
  end.

(** [rstrip] keeps a character when something other than white space
    follows it or when it is not white space itself. *)
Fixpoint rstrip (s : string) : string :=
  match s with
  | EmptyString => EmptyString
  | String c s' =>
      match rstrip s' with
      | EmptyString => if is_space c then EmptyString else String c EmptyString
      | r => String c r
      end
  end.

(** [s.strip()]. *)
Definition strip (s : string) : string := rstrip (lstrip s).

(** [s[n:]]. *)
Fixpoint drop (n : nat) (s : string) : string :=
  match n, s with
  | O, _ => s
  | S _, EmptyString => EmptyString
  | S n', String _ s' => drop n' s'
  end.

(** [s[:n]]. *)
Fixpoint take (n : nat) (s : string) : string :=
  match n, s with
  | O, _ => EmptyString
  | S _, EmptyString => EmptyString
  | S n', String c s' => String c (take n' s')
  end.

(** [s.split(sep, 1)] for a non-empty [sep] that occurs in [s]: the text
    before and the text after the first occurrence; [None] when [sep]
    does not occur (Python then returns the one-element list [[s]]). *)
Fixpoint split_once (sep s : string) : option (string * string) :=
  if prefix sep s then Some (EmptyString, drop (length sep) s)
  else match s with
       | EmptyString => None
       | String c s' =>
           match split_once sep s' with
           | Some (before, after) => Some (String c before, after)
           | None => None
           end
       end.

(** [s.split(sep)[0]]. *)
Definition split_head (sep s : string) : string :=
  match split_once sep s with
  | Some (before, _) => before
  | None => s
  end.

(** [s.split(sep, 1)[1]], defined when [sep] occurs in [s]. *)
Definition split_tail (sep s : string) : option string :=
  match split_once sep s with
  | Some (_, after) => Some after
  | None => None
  end.

(** [s.replace("\n", " ")]. *)
Fixpoint replace_newlines (s : string) : string :=
  match s with
  | EmptyString => EmptyString
  | String c s' =>
      String (if (nat_of_ascii c =? 10)%nat then " "%char else c)
             (replace_newlines s')
  end.

(** Truthiness of a string: [bool(s)]. *)
Definition nonempty (s : string) : bool :=
  match s with
  | EmptyString => false
  | String _ _ => true
  end.

(** [s.rstrip(c)] for a one-character set [c]. *)
Fixpoint rstrip_char (c : ascii) (s : string) : string :=
  match s with
  | EmptyString => EmptyString
  | String x s' =>
      match rstrip_char c s' with
      | EmptyString =>
          if Ascii.eqb x c then EmptyString else String x EmptyString
      | r => String x r
      end
  end.

(** [s.lstrip(c)] for a one-character set [c]. *)
Fixpoint lstrip_char (c : ascii) (s : string) : string :=
  match s with
  | EmptyString => EmptyString
  | String x s' => if Ascii.eqb x c then lstrip_char c s' else s
  end.

(** [s.strip(c)] for a one-character set [c]. *)
Definition strip_char (c : ascii) (s : string) : string :=
  rstrip_char c (lstrip_char c s).

(** [all(f(c) for c in s)]. *)
Fixpoint all_chars (f : ascii -> bool) (s : string) : bool :=
  match s with
  | EmptyString => true
  | String c s' => f c && all_chars f s'
  end.

(** [s.startswith(p)]. *)
Definition startswith (p s : string) : bool := prefix p s.

End PyStr.

(** ** Python values *)

(** The values [json.load] can produce, and the values the worker stores.
    Numbers are carried around untouched by the code and are represented by
    integers. *)
Inductive pyval : Type :=
| PNone
| PBool (b : bool)
| PInt (z : Z)
| PStr (s : string)
| PList (l : list pyval)
| PDict (d : list (string * pyval)).

(** [bool(v)]. *)
Definition truthy (v : pyval) : bool :=
  match v with
  | PNone => false
  | PBool b => b
  | PInt z => negb (Z.eqb z 0)
  | PStr s => PyStr.nonempty s
  | PList l => match l with [] => false | _ :: _ => true end
  | PDict d => match d with [] => false | _ :: _ => true end
  end.

(** [isinstance(v, str)]. *)
Definition is_str (v : pyval) : bool :=
  match v with
  | PStr _ => true
  | _ => false
  end.

(** [a or b]. *)
Definition py_or (a b : pyval) : pyval := if truthy a then a else b.

(** [d.get(k)]: the value bound to [k], [None] when there is none. *)
Fixpoint dict_get (k : string) (d : list (string * pyval)) : pyval :=
  match d with
  | [] => PNone
  | (k', v) :: d' => if String.eqb k k' then v else dict_get k d'
  end.

(** ** Exceptions and results *)

(** The exception classes the worker can tell apart.  [socket.timeout] and
    [TimeoutError] are the two classes the classifier checks by type. *)
Inductive exn_class : Type :=
| SocketTimeout
| TimeoutErrorClass
| OSErrorClass
| UnicodeDecodeError
| AttributeError
| TypeError
| DownloadError
| GenericException.

(** An exception object: its class, its [msg] attribute when it has one,
    what [str(exc)] returns and its [__cause__]. *)
Inductive exn : Type :=
| Exn (cls : exn_class) (msg_attr : option string) (str_exc : string)
      (cause : option exn).

Definition exn_cause (e : exn) : option exn :=
  match e with Exn _ _ _ c => c end.

(** A failure that carries nothing but a message. *)
Definition failure (message : string) : exn :=
  Exn GenericException None message None.

(** A failure raised [from] another one. *)
Definition failure_from (message : string) (cause : exn) : exn :=
  Exn GenericException None message (Some cause).

Inductive result (A : Type) : Type :=
| Ok (a : A)
| Raise (e : exn).
Arguments Ok {A} a.
Arguments Raise {A} e.

Definition bind {A B : Type} (r : result A) (k : A -> result B) : result B :=
  match r with
  | Ok a => k a
  | Raise e => Raise e
  end.

Notation "x <- r ;; k" := (bind r (fun x => k))
  (at level 61, r at next level, right associativity).

(** ** The error classifier ([q_get_videos.py]) *)

(** [isinstance(exc, (socket.timeout, TimeoutError))]. *)
Definition is_timeout_instance (c : exn_class) : bool :=
  match c with
  | SocketTimeout | TimeoutErrorClass => true
  | _ => false
  end.

(** [getattr(exc, "msg", None) or str(exc)]. *)
Definition exn_message (e : exn) : string :=
  match e with
  | Exn _ (Some m) s _ => if PyStr.nonempty m then m else s
  | Exn _ None s _ => s
  end.

Fixpoint is_timeout_error (exc : exn) : bool :=
  match exc with
  | Exn cls _ _ cause =>
      if is_timeout_instance cls then true
      else
        let msg := PyStr.lower (exn_message exc) in
        if PyStr.contains "timeout" msg || PyStr.contains "timed out" msg
        then true
        else match cause with
             | Some c => if is_timeout_error c then true else false
             | None => false
             end
  end.

Fixpoint is_rate_limit_error (exc : exn) : bool :=
  match exc with
  | Exn _ _ _ cause =>
      let msg := PyStr.lower (exn_message exc) in
      if PyStr.contains "429" msg || PyStr.contains "rate limit" msg
         || PyStr.contains "too many requests" msg
      then true
      else match cause with
           | Some c => if is_rate_limit_error c then true else false
           | None => false
           end
  end.

(** The three verdicts of the module docstring: timeout, rate limit, other. *)
Inductive verdict : Type := Timeout | RateLimited | Other.

(** The order in which the [except] block of [on_message] asks the two
    predicates. *)
Definition classify (e : exn) : verdict :=
  if is_timeout_error e then Timeout
  else if is_rate_limit_error e then RateLimited
  else Other.

(** ** Helpers of the worker *)

(** The id in [youtube.com/watch?v=ID] or [youtu.be/ID]. *)
Definition video_id_from_url (url : string) : option string :=
  if PyStr.contains "watch?v=" url then
    match PyStr.split_tail "watch?v=" url with
    | Some rest => Some (PyStr.strip (PyStr.split_head "&" rest))
    | None => None
    end
  else if PyStr.contains "youtu.be/" url then
    match PyStr.split_tail "youtu.be/" url with
    | Some rest => Some (PyStr.strip (PyStr.split_head "?" rest))
    | None => None
    end
  else None.

(** [video_id_from_url(url) or "unknown"]. *)
Definition video_id_or_unknown (url : string) : string :=
  match video_id_from_url url with
  | Some id => if PyStr.nonempty id then id else "unknown"
  | None => "unknown"
  end.

(** One line of [download_errors.log].  The line starts with the wall-clock
    time in ISO format, which is not part of the model. *)
Record log_line : Type := LogLine {
  line_video_id : string;
  line_detail : string
}.

(** The [detail] that [log_error] writes: one line, at most 200 characters. *)
Definition error_detail (error : exn) : string :=
  let detail := PyStr.replace_newlines (PyStr.strip (exn_message error)) in
  if (200 <? String.length detail)%nat
  then PyStr.take 197 detail ++ "..."
  else detail.

(** ** The metadata file *)

(** What [downloaded_videos.json] can look like to [load_metadata], told
    apart by what each step of reading it does:
    - [Absent]: [METADATA_JSON.exists()] is false;
    - [Unreadable]: [open] or [read] raises [OSError];
    - [NotUtf8]: the bytes are not valid UTF-8, so [f.read()] raises
      [UnicodeDecodeError] (a [ValueError], neither a [JSONDecodeError] nor
      an [OSError]);
    - [Blank]: the text is empty after [strip()];
    - [Malformed]: [json.loads] raises [JSONDecodeError];
    - [Document v]: [json.loads] returns [v]. *)
Inductive file : Type :=
| Absent
| Unreadable
| NotUtf8
| Blank
| Malformed
| Document (v : pyval).

Definition unicode_decode_error : exn :=
  Exn UnicodeDecodeError None
      "'utf-8' codec can't decode byte 0xff in position 0: invalid start byte"
      None.

Definition load_metadata_from (f : file) : result pyval :=
  match f with
  | Absent => Ok (PList [])
  | Unreadable => Ok (PList [])
  | NotUtf8 => Raise unicode_decode_error
  | Blank => Ok (PList [])
  | Malformed => Ok (PList [])
  | Document v => Ok v
  end.

(** [records.append(meta)]: only a list has [append]. *)
Definition list_append (records meta : pyval) : result pyval :=
  match records with
  | PList l => Ok (PList (l ++ [meta]))
  | _ => Raise (Exn AttributeError None "object has no attribute 'append'" None)
  end.

(** The two expressions that build [title_preview] in [on_message],
    [(meta.get("title") or "")[:50]] and [len(meta.get("title") or "")]:
    they succeed on a string or a list and raise on the other truthy values. *)
Definition title_preview (meta : pyval) : result unit :=
  match meta with
  | PDict d =>
      match py_or (dict_get "title" d) (PStr "") with
      | PStr _ | PList _ => Ok tt
      | PDict _ => Raise (Exn TypeError None "unhashable type: 'slice'" None)
      | _ => Raise (Exn TypeError None "object is not subscriptable" None)
      end
  | _ => Raise (Exn AttributeError None "object has no attribute 'get'" None)
  end.

(** ** The world the worker acts on *)

(** What the worker does to the broker channel and to the clock. *)
Inductive event : Type :=
| BasicAck (delivery_tag : nat)
| BasicNack (delivery_tag : nat) (requeue : bool)
| StopConsuming
| Sleep (seconds : nat).

(** The files, the calls made so far (oldest first), whether the consuming
    loop is still on, and the two flags [run_consumer] shares with
    [on_message].  Appending to the error log and calling the channel are
    taken to succeed: a failure there leaves [on_message] as an uncaught
    exception and ends the process. *)
Record world : Type := World {
  metadata_json : file;
  store_writable : bool;
  error_log : list log_line;
  calls : list event;
  consuming : bool;
  timeout_occurred : bool;
  rate_limit_occurred : bool
}.

Definition emit (ev : event) (w : world) : world :=
  World (metadata_json w) (store_writable w) (error_log w)
        (calls w ++ [ev]) (consuming w)
        (timeout_occurred w) (rate_limit_occurred w).

(** A computation on the world that returns a value or raises. *)
Definition M (A : Type) : Type := world -> result A * world.

Definition ret {A : Type} (a : A) : M A := fun w => (Ok a, w).

Definition raise {A : Type} (e : exn) : M A := fun w => (Raise e, w).

Definition lift {A : Type} (r : result A) : M A := fun w => (r, w).

Definition mbind {A B : Type} (m : M A) (k : A -> M B) : M B :=
  fun w =>
    match m w with
    | (Ok a, w') => k a w'
    | (Raise e, w') => (Raise e, w')
    end.

(** [try: body except Exception as e: handler(e)]. *)
Definition try_except {A : Type} (body : M A) (handler : exn -> M A) : M A :=
  fun w =>
    match body w with
    | (Ok a, w') => (Ok a, w')
    | (Raise e, w') => handler e w'
    end.

Declare Scope worker_scope.
Delimit Scope worker_scope with worker.
Notation "x <~ m ;; k" := (mbind m (fun x => k))
  (at level 61, m at next level, right associativity) : worker_scope.
Notation "m ;;; k" := (mbind m (fun _ => k))
  (at level 61, right associativity) : worker_scope.

Definition DELAY_BETWEEN_DOWNLOADS_SEC : nat := 5.

Definition basic_ack (delivery_tag : nat) : M unit :=
  fun w => (Ok tt, emit (BasicAck delivery_tag) w).

Definition basic_nack (delivery_tag : nat) (requeue : bool) : M unit :=
  fun w => (Ok tt, emit (BasicNack delivery_tag requeue) w).

Definition stop_consuming : M unit :=
  fun w =>
    let w' := emit StopConsuming w in
    (Ok tt, World (metadata_json w') (store_writable w') (error_log w')
                  (calls w') false
                  (timeout_occurred w') (rate_limit_occurred w')).

Definition sleep (seconds : nat) : M unit :=
  fun w => (Ok tt, emit (Sleep seconds) w).

Definition set_timeout_occurred : M unit :=
  fun w => (Ok tt, World (metadata_json w) (store_writable w) (error_log w)
                         (calls w) (consuming w)
                         true (rate_limit_occurred w)).

Definition set_rate_limit_occurred : M unit :=
  fun w => (Ok tt, World (metadata_json w) (store_writable w) (error_log w)
                         (calls w) (consuming w)
                         (timeout_occurred w) true).

Definition log_error (video_id : string) (error : exn) : M unit :=
  fun w => (Ok tt, World (metadata_json w) (store_writable w)
                         (error_log w ++ [LogLine video_id (error_detail error)])
                         (calls w) (consuming w)
                         (timeout_occurred w) (rate_limit_occurred w)).

Definition load_metadata : M pyval :=
  fun w => (load_metadata_from (metadata_json w), w).

(** [json.dump(records, f)] into a file opened with ["w"]: the file then
    holds the document that reads back as [records].  Opening fails with
    [OSError] when the file cannot be written.  A write that fails after
    [open] has truncated the file is not modelled: the properties that
    would depend on it assume [store_writable]. *)
Definition save_metadata (records : pyval) : M unit :=
  fun w =>
    if store_writable w then
      (Ok tt, World (Document records) (store_writable w) (error_log w)
                    (calls w) (consuming w)
                    (timeout_occurred w) (rate_limit_occurred w))
    else (Raise (Exn OSErrorClass None "Permission denied" None), w).

Section Worker.

Local Open Scope worker_scope.

(** [YoutubeDL.extract_info(url, download=True)], the fetch itself: it
    returns the info dictionary, or nothing, or raises. *)
Variable extract_info : string -> result pyval.

Definition download_and_collect_metadata (url : string) : result pyval :=
  info <- extract_info url ;;
  if negb (truthy info) then Ok PNone
  else
    match info with
    | PDict d =>
        let vid :=
          py_or (dict_get "id" d)
                (match video_id_from_url url with
                 | Some id => PStr id
                 | None => PNone
                 end) in
        let channel :=
          py_or (py_or (dict_get "channel" d) (dict_get "uploader" d))
                (PStr "") in
        let duration := dict_get "duration" d in
        let title := py_or (dict_get "title" d) (PStr "") in
        match py_or (dict_get "description" d) (PStr "") with
        | PStr description =>
            Ok (PDict [("id", vid); ("channel", channel);
                       ("duration", duration); ("title", title);
                       ("description", PStr (PyStr.strip description))])
        | _ => Raise (Exn AttributeError None
                          "object has no attribute 'strip'" None)
        end
    | _ => Raise (Exn AttributeError None
                      "object has no attribute 'get'" None)
    end.

(** Lines 174 to 182 of [on_message]: the fetch, and the
    load / append / save of the record when there is one. *)
Definition fetch_and_store (url : string) : M unit :=
  meta <~ lift (download_and_collect_metadata url) ;;
  if truthy meta then
    records <~ load_metadata ;;
    records' <~ lift (list_append records meta) ;;
    save_metadata records' ;;;
    lift (title_preview meta)
  else ret tt.

(** The [except Exception as e] block of [on_message]. *)
Definition on_exception (delivery_tag : nat) (video_id : string) (e : exn)
  : M unit :=
  if is_timeout_error e then
    set_timeout_occurred ;;;
    basic_nack delivery_tag true ;;;
    stop_consuming
  else if is_rate_limit_error e then
    log_error video_id e ;;;
    set_rate_limit_occurred ;;;
    basic_nack delivery_tag true ;;;
    stop_consuming
  else
    log_error video_id e ;;;
    basic_ack delivery_tag ;;;
    sleep DELAY_BETWEEN_DOWNLOADS_SEC.

Definition on_message (delivery_tag : nat) (body : string) : M unit :=
  let url := PyStr.strip body in
  let video_id := video_id_or_unknown url in
  if negb (PyStr.nonempty url) then basic_ack delivery_tag
  else
    try_except
      (fetch_and_store url ;;;
       basic_ack delivery_tag ;;;
       sleep DELAY_BETWEEN_DOWNLOADS_SEC)
      (on_exception delivery_tag video_id).

(** [channel.start_consuming()] with prefetch 1 and manual acks: the
    deliveries the broker hands over are given to [on_message] one at a
    time until [stop_consuming] is called or there is nothing more to
    deliver. *)
Fixpoint start_consuming (deliveries : list (nat * string)) : M unit :=
  fun w =>
    match deliveries with
    | [] => (Ok tt, w)
    | (delivery_tag, body) :: rest =>
        if consuming w then
          match on_message delivery_tag body w with
          | (Ok _, w') => start_consuming rest w'
          | (Raise e, w') => (Raise e, w')
          end
        else (Ok tt, w)
    end.

(** The world in which [run_consumer] starts the loop: both flags are
    [False] and the consumer is registered. *)
Definition fresh (store : file) (writable : bool) (log : list log_line)
  : world :=
  World store writable log [] true false false.

(** The exit status of the script: [run_consumer()] followed by
    [sys.exit(0)].  An exception that leaves [start_consuming] ends the
    process with status 1. *)
Definition run_consumer (deliveries : list (nat * string)) (w : world)
  : Z * world :=
  match start_consuming deliveries w with
  | (Raise _, w') => (1%Z, w')
  | (Ok _, w') =>
      if timeout_occurred w' then (1%Z, w')
      else if rate_limit_occurred w' then (1%Z, w')
      else (0%Z, w')
  end.

End Worker.

(** ** The producer ([a_q_put_videos.py]) *)

Module Producer.

(** What [main] prints. *)
Inductive printed : Type :=
| NoLinks
| PublishedTasks (published : nat).

(** The bodies handed to [basic_publish], oldest first, and the line
    printed. *)
Record run : Type := Run {
  sent : list string;
  output : printed
}.

(** The [for url in links] loop with its accumulators. *)
Fixpoint publish_loop (links : list pyval) (sent : list string)
         (published : nat) : list string * nat :=
  match links with
  | [] => (sent, published)
  | url :: rest =>
      if negb (truthy url) || negb (is_str url)
      then publish_loop rest sent published
      else
        match url with
        | PStr s => publish_loop rest (sent ++ [s]) (published + 1)
        | _ => publish_loop rest sent published
        end
  end.

Definition main (links : list pyval) : run :=
  if negb (truthy (PList links)) then Run [] NoLinks
  else
    let '(sent, published) := publish_loop links [] 0 in
    Run sent (PublishedTasks published).

(** The entries the specification calls well formed: non-empty strings. *)
Definition well_formed (v : pyval) : option string :=
  match v with
  | PStr s => if PyStr.nonempty s then Some s else None
  | _ => None
  end.

Fixpoint well_formed_entries (links : list pyval) : list string :=
  match links with
  | [] => []
  | v :: rest =>
      match well_formed v with
      | Some s => s :: well_formed_entries rest
      | None => well_formed_entries rest
      end
  end.

End Producer.

(** ** Reference notions of the specification *)

Section Outcomes.

Variable extract_info : string -> result pyval.

(** How the handling of one delivery ends: [None] when nothing was raised
    (an empty payload, or the lines 174 to 182 ran to their end), and the
    verdict on the exception otherwise. *)
Definition delivery_verdict (body : string) (w : world) : option verdict :=
  let url := PyStr.strip body in
  if negb (PyStr.nonempty url) then None
  else
    match fst (fetch_and_store extract_info url w) with
    | Ok _ => None
    | Raise e => Some (classify e)
    end.

(** The halt reason of a run: the verdict, [Timeout] or [RateLimited], of
    the first delivery that ends with one of them; [None] when the
    deliveries run out first. *)
Fixpoint halt_reason (deliveries : list (nat * string)) (w : world)
  : option verdict :=
  match deliveries with
  | [] => None
  | (delivery_tag, body) :: rest =>
      match delivery_verdict body w with
      | Some Timeout => Some Timeout
      | Some RateLimited => Some RateLimited
      | _ => halt_reason rest (snd (on_message extract_info delivery_tag body w))
      end
  end.

(** The records the fetches of a list of deliveries return, in order. *)
Fixpoint fetched_records (deliveries : list (nat * string)) : list pyval :=
  match deliveries with
  | [] => []
  | (_, body) :: rest =>
      match download_and_collect_metadata extract_info (PyStr.strip body) with
      | Ok meta => if truthy meta then meta :: fetched_records rest
                   else fetched_records rest
      | Raise _ => fetched_records rest
      end
  end.

End Outcomes.

(** ** Observations on worlds *)

(** The worlds that differ from [w] in the metadata file only. *)
Definition same_but_store (w w' : world) : Prop :=
  store_writable w' = store_writable w /\
  error_log w' = error_log w /\
  calls w' = calls w /\
  consuming w' = consuming w /\
  timeout_occurred w' = timeout_occurred w /\
  rate_limit_occurred w' = rate_limit_occurred w.

(** The calls made between the world [w] and the later world [w']. *)
Definition new_calls (w w' : world) : list event :=
  skipn (List.length (calls w)) (calls w').

(** The lines written to the error log between [w] and [w']. *)
Definition new_log_lines (w w' : world) : list log_line :=
  skipn (List.length (error_log w)) (error_log w').

(** What [load_metadata()] returns in a world. *)
Definition load (w : world) : result pyval :=
  load_metadata_from (metadata_json w).

(** Whether the digits 429 occur in the message of a failure or of one of
    its causes. *)
Fixpoint mentions_429 (e : exn) : bool :=
  match e with
  | Exn _ _ _ cause =>
      PyStr.contains "429" (PyStr.lower (exn_message e))
      || match cause with
         | Some c => mentions_429 c
         | None => false
         end
  end.

Section Claims.

Variable extract_info : string -> result pyval.

(** The at-least-once property with the three grounds for an ack that the
    specification lists: an empty payload, a record produced by the
    fetch, a failure classified [Other]. *)
Definition acked_on_three_grounds (delivery_tag : nat) (body : string)
           (w : world) : Prop :=
  let url := PyStr.strip body in
  In (BasicAck delivery_tag)
     (new_calls w (snd (on_message extract_info delivery_tag body w))) ->
  url = ""
  \/ (exists meta, download_and_collect_metadata extract_info url = Ok meta
                   /\ truthy meta = true)
  \/ (exists e, fst (fetch_and_store extract_info url w) = Raise e
                /\ classify e = Other).

(** A delivery with a non-empty payload whose fetch returns a record. *)
Definition successful_fetch (delivery : nat * string) : Prop :=
  PyStr.nonempty (PyStr.strip (snd delivery)) = true /\
  exists meta,
    download_and_collect_metadata extract_info (PyStr.strip (snd delivery))
    = Ok meta
    /\ truthy meta = true.

(** The record that the fetch of a delivery returned. *)
Definition fetched (delivery : nat * string) (meta : pyval) : Prop :=
  download_and_collect_metadata extract_info (PyStr.strip (snd delivery))
  = Ok meta.

End Claims.

(** ** A concrete run *)

Module Scenario.

Definition url_AAA : string := "https://x/watch?v=AAA".
Definition url_BBB : string := "https://x/watch?v=BBB".
Definition url_CCC : string := "https://x/watch?v=CCC".
Definition url_DDD : string := "https://youtu.be/DDD?t=3".
Definition url_429 : string := "https://youtu.be/x429yzAbCdE".

Definition too_many_requests : exn :=
  failure "HTTP Error 429: Too Many Requests".

Definition unavailable_429 : exn :=
  failure "ERROR: [youtube] x429yzAbCdE: Video unavailable".

(** A fetch that succeeds on AAA and DDD, is rate limited on BBB, fails
    on the video whose id contains 429 and returns nothing elsewhere. *)
Definition extract_info (url : string) : result pyval :=
  if String.eqb url url_AAA then
    Ok (PDict [("id", PStr "AAA"); ("title", PStr "first");
               ("uploader", PStr "someone"); ("duration", PInt 12)])
  else if String.eqb url url_DDD then
    Ok (PDict [("title", PStr "second")])
  else if String.eqb url url_BBB then Raise too_many_requests
  else if String.eqb url url_429 then Raise unavailable_429
  else Ok PNone.

Definition record_AAA : pyval :=
  PDict [("id", PStr "AAA"); ("channel", PStr "someone");
         ("duration", PInt 12); ("title", PStr "first");
         ("description", PStr "")].

Definition record_DDD : pyval :=
  PDict [("id", PStr "DDD"); ("channel", PStr "");
         ("duration", PNone); ("title", PStr "second");
         ("description", PStr "")].

(** No metadata file yet, a writable directory, an empty error log. *)
Definition start : world := fresh Absent true [].

(** The queue of the end-to-end scenario of the specification. *)
Definition queue : list (nat * string) :=
  [(1, url_AAA); (2, ""); (3, url_BBB)].

End Scenario.

(** The url that [scrape_channel_videos] of [main.py] builds from a video
    id: [f"https://www.youtube.com/watch?v={video_id}"]. *)
Definition watch_url (video_id : string) : string :=
  "https://www.youtube.com/watch?v=" ++ video_id.

(** ** The scraper ([main.py]) *)

Module Scraper.

(** Append [/videos] to a YouTube channel url that lacks it. *)
Definition normalize_channel_url (url : string) : string :=
  let url := PyStr.rstrip_char "/" (PyStr.strip url) in
  if negb (PyStr.contains "youtube.com" url) || PyStr.contains "/videos" url
  then url
  else (url ++ "/videos")%string.

(** The body of the [for line in f] loop of [iter_channel_urls]. *)
Fixpoint channel_lines (lines : list string) : list string :=
  match lines with
  | [] => []
  | line :: rest =>
      let line := PyStr.strip line in
      if negb (PyStr.nonempty line) || PyStr.startswith "#" line
      then channel_lines rest
      else line :: channel_lines rest
  end.

(** [iter_channel_urls(path)], the file being given by its lines, or by
    [None] when it does not exist ([FileNotFoundError] is an [OSError]). *)
Definition iter_channel_urls (file : option (list string))
  : result (list string) :=
  match file with
  | None =>
      Raise (Exn OSErrorClass None "Channels file not found: channels.det"
                 None)
  | Some lines => Ok (channel_lines lines)
  end.

Section Scrape.

(** [str(v)] for the values that are not strings. *)
Variable repr : pyval -> string.

(** [f"{v}"]. *)
Definition format_value (v : pyval) : string :=
  match v with
  | PStr s => s
  | _ => repr v
  end.

(** One turn of the [for entry in entries] loop: the video appended, if
    any. *)
Definition scrape_entry (channel_name entry : pyval)
  : result (option pyval) :=
  match entry with
  | PNone => Ok None
  | PDict e =>
      let video_id := dict_get "id" e in
      let video_url :=
        py_or (py_or (dict_get "url" e) (dict_get "webpage_url" e))
              (if truthy video_id
               then PStr (watch_url (format_value video_id))
               else PNone) in
      if negb (truthy video_url) then Ok None
      else
        let duration := dict_get "duration" e in
        let channel := py_or (dict_get "channel" e) channel_name in
        Ok (Some (PDict [("url", video_url); ("duration", duration);
                         ("channel", channel)]))
  | _ => Raise (Exn AttributeError None "object has no attribute 'get'" None)
  end.

Fixpoint scrape_entries (channel_name : pyval) (entries videos : list pyval)
  : result (list pyval) :=
  match entries with
  | [] => Ok videos
  | entry :: rest =>
      video <- scrape_entry channel_name entry ;;
      match video with
      | Some v => scrape_entries channel_name rest (videos ++ [v])
      | None => scrape_entries channel_name rest videos
      end
  end.

(** [scrape_channel_videos] on what [ydl.extract_info(channel_url,
    download=False)] returned. *)
Definition scrape_channel_videos (info : pyval) : result (list pyval) :=
  match info with
  | PDict i =>
      let entries := py_or (dict_get "entries" i) (PList []) in
      let channel_name :=
        py_or (py_or (py_or (dict_get "channel" i) (dict_get "uploader" i))
                     (dict_get "title" i))
              PNone in
      match entries with
      | PList l => scrape_entries channel_name l []
      | PStr _ | PDict _ =>
          Raise (Exn AttributeError None "object has no attribute 'get'" None)
      | _ => Raise (Exn TypeError None "object is not iterable" None)
      end
  | _ => Raise (Exn AttributeError None "object has no attribute 'get'" None)
  end.

(** [ydl.extract_info(url, download=False)]. *)
Variable extract_info : string -> result pyval.

(** The loop of [main] over the channel urls: a channel whose scraping
    raises is reported and skipped. *)
Fixpoint scrape_all (urls : list string) (all_videos : list pyval)
  : list pyval :=
  match urls with
  | [] => all_videos
  | url :: rest =>
      match info <- extract_info (normalize_channel_url url) ;;
            scrape_channel_videos info with
      | Ok channel_videos => scrape_all rest (all_videos ++ channel_videos)
      | Raise _ => scrape_all rest all_videos
      end
  end.

(** [main]: the exit status and the document written to [videos.json]. *)
Definition main (file : option (list string)) : Z * option pyval :=
  match file with
  | None => (1%Z, None)
  | Some lines => (0%Z, Some (PList (scrape_all (channel_lines lines) [])))
  end.

End Scrape.

End Scraper.

(** An entry of [videos.json] as the scraper means it: the three keys, and
    a url that is there. *)
Definition video_shape (v : pyval) : Prop :=
  exists url duration channel,
    v = PDict [("url", url); ("duration", duration); ("channel", channel)] /\
    truthy url = true.

(** ** The uploader ([push.py]) *)

Module Uploader.

(** The characters of [a-z0-9]. *)
Definition is_lower_alnum (c : ascii) : bool :=
  let n := nat_of_ascii c in
  ((97 <=? n)%nat && (n <=? 122)%nat) || ((48 <=? n)%nat && (n <=? 57)%nat).

(** [re.sub(r"[^a-z0-9]+", "_", s)]: every maximal run of other characters
    becomes one underscore, written when the run ends. *)
Fixpoint sub_non_alnum (s : string) : string :=
  match s with
  | EmptyString => EmptyString
  | String c s' =>
      if is_lower_alnum c then String c (sub_non_alnum s')
      else
        match s' with
        | EmptyString => "_"
        | String c' _ =>
            if is_lower_alnum c' then String "_" (sub_non_alnum s')
            else sub_non_alnum s'
        end
  end.

Definition channel_to_username (channel : string) : string :=
  if negb (PyStr.nonempty channel) then "unknown"
  else
    let s := PyStr.lower (PyStr.strip channel) in
    let s := sub_non_alnum s in
    let s := PyStr.strip_char "_" s in
    let s := if PyStr.nonempty s then s else "user" in
    PyStr.take 64 s.

(** The characters a user name is made of. *)
Definition username_char (c : ascii) : bool :=
  is_lower_alnum c || Ascii.eqb c "_".

(** A Python [dict] whose keys are JSON scalars, in insertion order. *)
Definition pydict : Type := list (pyval * pyval).

(** [hash(k)] is defined: lists and dictionaries are not hashable. *)
Definition hashable (k : pyval) : bool :=
  match k with
  | PList _ | PDict _ => false
  | _ => true
  end.

(** [a == b] on hashable values; [True == 1] and [False == 0]. *)
Definition key_eqb (a b : pyval) : bool :=
  match a, b with
  | PNone, PNone => true
  | PStr s, PStr t => String.eqb s t
  | PInt x, PInt y => Z.eqb x y
  | PBool x, PBool y => Bool.eqb x y
  | PBool x, PInt y | PInt y, PBool x => Z.eqb (if x then 1 else 0) y
  | _, _ => false
  end.

(** [d[k] = v]: the value of an equal key is replaced where it stands, a
    new key goes to the end. *)
Fixpoint dict_set (k v : pyval) (d : pydict) : pydict :=
  match d with
  | [] => [(k, v)]
  | (k0, v0) :: d' =>
      if key_eqb k k0 then (k0, v) :: d' else (k0, v0) :: dict_set k v d'
  end.

(** [d.get(k)] as an option: [None] when [k not in d]. *)
Fixpoint dict_lookup (k : pyval) (d : pydict) : option pyval :=
  match d with
  | [] => None
  | (k0, v0) :: d' => if key_eqb k k0 then Some v0 else dict_lookup k d'
  end.

(** The comprehension [{r["id"]: r for r in records if r.get("id")}]. *)
Fixpoint index_records (records : list pyval) (d : pydict) : result pydict :=
  match records with
  | [] => Ok d
  | r :: rest =>
      match r with
      | PDict fields =>
          let id := dict_get "id" fields in
          if truthy id then
            if hashable id then index_records rest (dict_set id r d)
            else Raise (Exn TypeError None "unhashable type" None)
          else index_records rest d
      | _ => Raise (Exn AttributeError None
                        "object has no attribute 'get'" None)
      end
  end.

(** [load_metadata()] on the array read from the json file. *)
Definition load_metadata (records : list pyval) : result pydict :=
  index_records records [].

(** The loop of [main] over the mp4 files, each given by its stem: the
    stems without metadata and the files to upload with their metadata. *)
Fixpoint partition_files (stems : list string) (metadata : pydict)
         (missing : list string) (to_upload : list (string * pyval))
  : list string * list (string * pyval) :=
  match stems with
  | [] => (missing, to_upload)
  | vid_id :: rest =>
      match dict_lookup (PStr vid_id) metadata with
      | None => partition_files rest metadata (missing ++ [vid_id]) to_upload
      | Some meta =>
          partition_files rest metadata missing (to_upload ++ [(vid_id, meta)])
      end
  end.

(** The last record of a list whose id is the non-empty string [vid_id]. *)
Fixpoint last_record_with_id (vid_id : string) (records : list pyval)
  : option pyval :=
  match records with
  | [] => None
  | r :: rest =>
      match last_record_with_id vid_id rest with
      | Some r' => Some r'
      | None =>
          match r with
          | PDict fields =>
              match dict_get "id" fields with
              | PStr s =>
                  if String.eqb s vid_id && PyStr.nonempty s then Some r
                  else None
              | _ => None
              end
          | _ => None
          end
      end
  end.

(** Whether some record of the metadata file has this non-empty id. *)
Definition has_record (records : list pyval) (vid_id : string) : bool :=
  match last_record_with_id vid_id records with
  | Some _ => true
  | None => false
  end.

End Uploader.

(** ** The upload of one video and of a folder ([push.py]) *)

Module UploadFlow.

(** The requests and file operations of the uploader, in the order made.
    A call is recorded when it is made, whether or not it succeeds.  What
    the outside answers is a function of the request; creating and
    removing the temporary thumbnail file are taken to succeed. *)
Inductive call : Type :=
| Login (username : string)
| Register (username : string)
| RequestLinks (token title description : pyval)
| PutVideo (url : pyval) (video_path : string)
| MakeTemp
| Ffmpeg (video_path : string)
| PutThumbnail (url : pyval)
| Unlink
| Acknowledge (token bridge_id : pyval)
| Move (video_path : string).

(** The cache [tokens_by_username] and the calls made so far. *)
Record state : Type := State {
  tokens_by_username : list (string * pyval);
  made : list call
}.

Definition U (A : Type) : Type := state -> result A * state.

Definition uret {A : Type} (a : A) : U A := fun st => (Ok a, st).

Definition uraise {A : Type} (e : exn) : U A := fun st => (Raise e, st).

Definition ubind {A B : Type} (m : U A) (k : A -> U B) : U B :=
  fun st =>
    match m st with
    | (Ok a, st') => k a st'
    | (Raise e, st') => (Raise e, st')
    end.

(** [try: body finally: cleanup]. *)
Definition try_finally {A : Type} (body : U A) (cleanup : U unit) : U A :=
  fun st =>
    match body st with
    | (Ok a, st') =>
        match cleanup st' with
        | (Ok _, st'') => (Ok a, st'')
        | (Raise e, st'') => (Raise e, st'')
        end
    | (Raise e, st') =>
        match cleanup st' with
        | (Ok _, st'') => (Raise e, st'')
        | (Raise e', st'') => (Raise e', st'')
        end
    end.

(** Make a call and get what the outside answers. *)
Definition request {A : Type} (c : call) (answer : result A) : U A :=
  fun st => (answer, State (tokens_by_username st) (made st ++ [c])).

Declare Scope upload_scope.
Delimit Scope upload_scope with upload.
Notation "x <~ m ;; k" := (ubind m (fun x => k))
  (at level 61, m at next level, right associativity) : upload_scope.
Notation "m ;;; k" := (ubind m (fun _ => k))
  (at level 61, right associativity) : upload_scope.

(** The value bound to a key, when there is one. *)
Fixpoint dict_find (k : string) (d : list (string * pyval)) : option pyval :=
  match d with
  | [] => None
  | (k', v) :: d' => if String.eqb k k' then Some v else dict_find k d'
  end.

Definition attribute_error : exn :=
  Exn AttributeError None "object has no attribute 'get'" None.

Definition runtime_error (message : string) : exn :=
  Exn GenericException None message None.

Definition key_error (key : string) : exn :=
  Exn GenericException None key None.

(** [data.get("data", {}).get("token")]. *)
Definition token_of (data : list (string * pyval)) : result pyval :=
  match dict_find "data" data with
  | None => Ok PNone
  | Some (PDict inner) => Ok (dict_get "token" inner)
  | Some _ => Raise attribute_error
  end.

Section Outside.

Local Open Scope upload_scope.

(** The parsed answer to the login request. *)
Variable post_login : string -> result pyval.
(** The parsed answer to the registration, after [raise_for_status]. *)
Variable post_register : string -> result pyval.
(** The parsed answer to the request for upload links. *)
Variable post_upload : pyval -> pyval -> pyval -> result pyval.
(** The two [PUT]s, [ffmpeg], the acknowledgment and [shutil.move]. *)
Variable put_file : pyval -> string -> result unit.
Variable put_thumbnail : pyval -> result unit.
Variable run_ffmpeg : string -> result unit.
Variable post_ack : pyval -> pyval -> result pyval.
Variable move_file : string -> result unit.
(** Whether [float(v)] succeeds, and [os.path.basename]. *)
Variable to_float : pyval -> result unit.
Variable basename : string -> string.

Definition auth_login (username : string) : U (option pyval) :=
  data <~ request (Login username) (post_login username) ;;
  match data with
  | PDict d =>
      if truthy (dict_get "success" d) then
        match token_of d with
        | Ok token => if truthy token then uret (Some token) else uret None
        | Raise e => uraise e
        end
      else uret None
  | _ => uraise attribute_error
  end.

Definition auth_register (username : string) : U pyval :=
  data <~ request (Register username) (post_register username) ;;
  match data with
  | PDict d =>
      if negb (truthy (dict_get "success" d)) then
        uraise (runtime_error "Register failed")
      else
        match token_of d with
        | Ok token =>
            if negb (truthy token) then uraise (runtime_error "Register failed")
            else uret token
        | Raise e => uraise e
        end
  | _ => uraise attribute_error
  end.

Definition get_token (username : string) : U pyval :=
  token <~ auth_login username ;;
  match token with
  | Some t => uret t
  | None => auth_register username
  end.

(** [d[key]] for the three keys read from the answer. *)
Definition subscript (d : pyval) (key : string) : result pyval :=
  match d with
  | PDict fields =>
      match dict_find key fields with
      | Some v => Ok v
      | None => Raise (key_error key)
      end
  | _ => Raise (Exn TypeError None "object is not subscriptable" None)
  end.

Definition get_upload_links (token video_title video_description : pyval)
  : U (pyval * pyval * pyval) :=
  let description := py_or video_description (PStr "") in
  data <~ request (RequestLinks token video_title description)
                  (post_upload token video_title description) ;;
  match data with
  | PDict fields =>
      if negb (truthy (dict_get "success" fields)) then
        uraise (runtime_error "Upload links failed")
      else
        match dict_find "data" fields with
        | None => uraise (key_error "data")
        | Some d =>
            match subscript d "bridge_id", subscript d "gateway_url",
                  subscript d "gateway_url_thumbnail" with
            | Ok b, Ok g, Ok t => uret (b, g, t)
            | Raise e, _, _ => uraise e
            | _, Raise e, _ => uraise e
            | _, _, Raise e => uraise e
            end
        end
  | _ => uraise attribute_error
  end.

Definition acknowledge_upload (token bridge_id : pyval) : U unit :=
  data <~ request (Acknowledge token bridge_id) (post_ack token bridge_id) ;;
  match data with
  | PDict fields =>
      if negb (truthy (dict_get "success" fields)) then
        uraise (runtime_error "Ack failed")
      else uret tt
  | _ => uraise attribute_error
  end.

(** The token of a user name, asked for once and then kept. *)
Definition token_for (username : string) : U pyval :=
  fun st =>
    match dict_find username (tokens_by_username st) with
    | Some token => (Ok token, st)
    | None =>
        match get_token username st with
        | (Ok token, st') =>
            (Ok token,
             State (tokens_by_username st' ++ [(username, token)]) (made st'))
        | (Raise e, st') => (Raise e, st')
        end
    end.

(** [upload_video] from the point where the token is known. *)
Definition upload_with_token (video_path : string)
           (meta : list (string * pyval)) (token : pyval) : U unit :=
  let title :=
    py_or (dict_get "title" meta) (PStr (basename video_path)) in
  let description := py_or (dict_get "description" meta) (PStr "") in
  match to_float (py_or (dict_get "duration" meta) (PInt 0)) with
  | Raise e => uraise e
  | Ok _ =>
      links <~ get_upload_links token title description ;;
      let '(bridge_id, gateway_url, gateway_url_thumbnail) := links in
      request (PutVideo gateway_url video_path)
              (put_file gateway_url video_path) ;;;
      request MakeTemp (Ok tt) ;;;
      try_finally
        (request (Ffmpeg video_path) (run_ffmpeg video_path) ;;;
         request (PutThumbnail gateway_url_thumbnail)
                 (put_thumbnail gateway_url_thumbnail))
        (request Unlink (Ok tt)) ;;;
      acknowledge_upload token bridge_id
  end.

Definition upload_video (video_path : string) (meta : list (string * pyval))
  : U unit :=
  match py_or (dict_get "channel" meta) (PStr "unknown") with
  | PStr channel =>
      let username := Uploader.channel_to_username channel in
      token <~ token_for username ;;
      upload_with_token video_path meta token
  | _ => uraise (Exn AttributeError None
                     "object has no attribute 'strip'" None)
  end.

(** The two expressions evaluated before the [try] of the loop of [main]:
    [meta["id"]] and [meta.get('title', '')[:50]]. *)
Definition announce (meta : list (string * pyval)) : result unit :=
  match dict_find "id" meta with
  | None => Raise (key_error "id")
  | Some _ =>
      match dict_find "title" meta with
      | None | Some (PStr _) | Some (PList _) => Ok tt
      | Some _ =>
          Raise (Exn TypeError None "object is not subscriptable" None)
      end
  end.

(** The loop of [main] over [to_upload]: the first exception ends it. *)
Fixpoint upload_all (to_upload : list (string * list (string * pyval)))
  : U unit :=
  match to_upload with
  | [] => uret tt
  | (video_path, meta) :: rest =>
      match announce meta with
      | Raise e => uraise e
      | Ok _ =>
          upload_video video_path meta ;;;
          request (Move video_path) (move_file video_path) ;;;
          upload_all rest
      end
  end.

(** The request for upload links was answered with [success] and with
    these three values under [data]. *)
Definition links_obtained
           (token title description bridge_id video_url thumbnail_url : pyval)
  : Prop :=
  exists fields links,
    post_upload token title description = Ok (PDict fields) /\
    truthy (dict_get "success" fields) = true /\
    dict_find "data" fields = Some (PDict links) /\
    dict_find "bridge_id" links = Some bridge_id /\
    dict_find "gateway_url" links = Some video_url /\
    dict_find "gateway_url_thumbnail" links = Some thumbnail_url.

(** The acknowledgment of a bridge id is accepted by the server. *)
Definition ack_accepted (token bridge_id : pyval) : bool :=
  match post_ack token bridge_id with
  | Ok (PDict fields) => truthy (dict_get "success" fields)
  | _ => false
  end.

(** How many of the acknowledgments made were accepted. *)
Fixpoint acknowledged (calls : list call) : nat :=
  match calls with
  | [] => 0
  | Acknowledge token bridge_id :: rest =>
      if ack_accepted token bridge_id then S (acknowledged rest)
      else acknowledged rest
  | _ :: rest => acknowledged rest
  end.

End Outside.

(** The state in which [main] starts the loop. *)
Definition initial : state := State [] [].

(** How often a user name was sent to the login endpoint. *)
Fixpoint logins (username : string) (calls : list call) : nat :=
  match calls with
  | [] => 0
  | Login u :: rest =>
      if String.eqb u username then S (logins username rest)
      else logins username rest
  | _ :: rest => logins username rest
  end.

(** The cache holds exactly the user names that were sent to the login
    endpoint, each of them sent once. *)
Definition cache_matches_logins (st : state) : Prop :=
  forall u,
    logins u (made st) =
    match dict_find u (tokens_by_username st) with
    | Some _ => 1%nat
    | None => 0%nat
    end.

(** How many temporary files were made and how many were removed. *)
Fixpoint temp_files (calls : list call) : nat :=
  match calls with
  | [] => 0
  | MakeTemp :: rest => S (temp_files rest)
  | _ :: rest => temp_files rest
  end.

Fixpoint unlinks (calls : list call) : nat :=
  match calls with
  | [] => 0
  | Unlink :: rest => S (unlinks rest)
  | _ :: rest => unlinks rest
  end.

(** The paths handed to [shutil.move], in order. *)
Fixpoint moved (calls : list call) : list string :=
  match calls with
  | [] => []
  | Move p :: rest => p :: moved rest
  | _ :: rest => moved rest
  end.

(** The calls made between a state and a later one. *)
Definition new_calls (st st' : state) : list call :=
  skipn (List.length (made st)) (made st').

End UploadFlow.

(** ** A concrete server for the uploader *)

Module UploadScenario.

Definition post_login (username : string) : result pyval :=
  Ok (PDict [("success", PBool true);
             ("data", PDict [("token", PStr "token-1")])]).

Definition post_register (username : string) : result pyval :=
  Raise (UploadFlow.runtime_error "409 Conflict").

Definition post_upload (token title description : pyval) : result pyval :=
  Ok (PDict [("success", PBool true);
             ("data", PDict [("bridge_id", PStr "bridge-1");
                             ("gateway_url", PStr "https://r2/video");
                             ("gateway_url_thumbnail",
                              PStr "https://r2/thumbnail")])]).

Definition put_file (url : pyval) (video_path : string) : result unit := Ok tt.
Definition put_thumbnail (url : pyval) : result unit := Ok tt.
Definition run_ffmpeg (video_path : string) : result unit := Ok tt.

Definition post_ack (token bridge_id : pyval) : result pyval :=
  Ok (PDict [("success", PBool true)]).

Definition move_file (video_path : string) : result unit := Ok tt.
Definition to_float (v : pyval) : result unit := Ok tt.
Definition basename (video_path : string) : string := video_path.

Definition upload_video :=
  UploadFlow.upload_video post_login post_register post_upload put_file
    put_thumbnail run_ffmpeg post_ack to_float basename.

(** Two records of the metadata file with the same id, and one without. *)
Definition records : list pyval :=
  [PDict [("id", PStr "AAA"); ("title", PStr "first take")];
   PDict [("id", PStr ""); ("title", PStr "no id")];
   PDict [("id", PStr "AAA"); ("title", PStr "second take")]].

End UploadScenario.

(** ** The payload as bytes *)

(** The body of a delivery as the broker hands it over: the UTF-8 encoding
    of a text, or bytes that are not valid UTF-8. *)
Inductive payload : Type :=
| Utf8 (text : string)
| NotUtf8Payload.

(** [body.decode("utf-8")]. *)
Definition decode (body : payload) : result string :=
  match body with
  | Utf8 text => Ok text
  | NotUtf8Payload => Raise unicode_decode_error
  end.

Section Callback.

Variable extract_info : string -> result pyval.

(** The callback registered as [on_message_callback], from its first line:
    [body.decode("utf-8")] of line 166 stands before the [try], so its
    exception leaves the callback; [on_message] above is the callback from
    the decoded text on. *)
Definition on_message_callback (delivery_tag : nat) (body : payload)
  : M unit :=
  match decode body with
  | Ok text => on_message extract_info delivery_tag text
  | Raise e => raise e
  end.

(** [channel.start_consuming()] on deliveries given as bytes: an exception
    that leaves the callback leaves the loop. *)
Fixpoint start_consuming_bytes (deliveries : list (nat * payload))
  : M unit :=
  fun w =>
    match deliveries with
    | [] => (Ok tt, w)
    | (delivery_tag, body) :: rest =>
        if consuming w then
          match on_message_callback delivery_tag body w with
          | (Ok _, w') => start_consuming_bytes rest w'
          | (Raise e, w') => (Raise e, w')
          end
        else (Ok tt, w)
    end.

(** The exit status of the script on deliveries given as bytes: lines 213
    to 225, which an exception leaving [start_consuming] skips; the
    interpreter then ends the process with status 1. *)
Definition run_consumer_bytes (deliveries : list (nat * payload))
           (w : world) : Z * world :=
  match start_consuming_bytes deliveries w with
  | (Raise _, w') => (1%Z, w')
  | (Ok _, w') =>
      if timeout_occurred w' then (1%Z, w')
      else if rate_limit_occurred w' then (1%Z, w')
      else (0%Z, w')
  end.

(** How a run ends: with a halt on the first delivery whose verdict is
    [Timeout] or [RateLimited], with an exception that leaves the loop, or
    because the deliveries ran out. *)
Inductive ending : Type :=
| Halted (v : verdict)
| Escaped (e : exn)
| Drained.

Fixpoint run_ending (deliveries : list (nat * payload)) (w : world)
  : ending :=
  match deliveries with
  | [] => Drained
  | (delivery_tag, body) :: rest =>
      match decode body with
      | Raise e => Escaped e
      | Ok text =>
          match delivery_verdict extract_info text w with
          | Some Timeout => Halted Timeout
          | Some RateLimited => Halted RateLimited
          | _ =>
              run_ending rest
                (snd (on_message extract_info delivery_tag text w))
          end
      end
  end.

(** The exit status as the specification states it: non-zero on a
    [Timeout] or [RateLimited] halt, zero when the loop ended for any other
    reason. *)
Definition exit_zero_unless_halted (deliveries : list (nat * payload))
           (w : world) : Prop :=
  match run_ending deliveries w with
  | Halted Timeout | Halted RateLimited =>
      fst (run_consumer_bytes deliveries w) <> 0%Z
  | _ => fst (run_consumer_bytes deliveries w) = 0%Z
  end.

End Callback.

(** ** Further notions used by the properties of the worker *)

Section Stored.

Variable extract_info : string -> result pyval.



End Stored.



(** An exception followed by its [__cause__], the cause of that, and so
    on. *)
Fixpoint cause_chain (e : exn) : list exn :=
  match e with
  | Exn _ _ _ cause =>
      e :: match cause with
           | Some c => cause_chain c
           | None => []
           end
  end.

(** The two tests that [is_timeout_error] makes on one exception, without
    looking at its cause. *)
Definition timeout_signature (e : exn) : bool :=
  match e with
  | Exn cls _ _ _ =>
      is_timeout_instance cls
      || PyStr.contains "timeout" (PyStr.lower (exn_message e))
      || PyStr.contains "timed out" (PyStr.lower (exn_message e))
  end.

(** The test that [is_rate_limit_error] makes on one exception, without
    looking at its cause. *)
Definition rate_limit_signature (e : exn) : bool :=
  PyStr.contains "429" (PyStr.lower (exn_message e))
  || PyStr.contains "rate limit" (PyStr.lower (exn_message e))
  || PyStr.contains "too many requests" (PyStr.lower (exn_message e)).

(** The characters other than the line feed. *)
Definition not_newline (c : ascii) : bool := negb (nat_of_ascii c =? 10)%nat.

(** The two calls of a halt: the nack and [stop_consuming]. *)
Definition is_halt_call (ev : event) : bool :=
  match ev with
  | BasicNack _ _ | StopConsuming => true
  | BasicAck _ | Sleep _ => false
  end.

(** The acks and nacks among some calls. *)
Definition is_resolution (ev : event) : bool :=
  match ev with
  | BasicAck _ | BasicNack _ _ => true
  | StopConsuming | Sleep _ => false
  end.

Definition resolved_tag (ev : event) : option nat :=
  match ev with
  | BasicAck t | BasicNack t _ => Some t
  | StopConsuming | Sleep _ => None
  end.

Fixpoint resolved_tags (evs : list event) : list nat :=
  match evs with
  | [] => []
  | ev :: rest =>
      match resolved_tag ev with
      | Some t => t :: resolved_tags rest
      | None => resolved_tags rest
      end
  end.

Ltac unfold_worker :=
  unfold try_except, mbind, lift, ret, raise, basic_ack, basic_nack,
    stop_consuming, sleep, set_timeout_occurred, set_rate_limit_occurred,
    log_error, load_metadata, save_metadata, emit in *.

(** * Properties *)

(** ** The classifier *)

Lemma is_timeout_error_message (e : exn) :
  PyStr.contains "timeout" (PyStr.lower (exn_message e))
  || PyStr.contains "timed out" (PyStr.lower (exn_message e)) = true ->
  is_timeout_error e = true.
Proof.
  destruct e as [cls m s cause]; intros H.
  cbn [is_timeout_error].
  destruct (is_timeout_instance cls); [reflexivity|].
  rewrite H; reflexivity.
Qed.

Lemma is_timeout_error_cause (e c : exn) :
  exn_cause e = Some c ->
  is_timeout_error c = true ->
  is_timeout_error e = true.
Proof.
  destruct e as [cls m s cause]; cbn [exn_cause]; intros -> Hc.
  cbn [is_timeout_error].
  destruct (is_timeout_instance cls); [reflexivity|].
  match goal with |- (if ?b then _ else _) = _ => destruct b end;
    [reflexivity|].
  rewrite Hc; reflexivity.
Qed.

Lemma is_rate_limit_error_message (e : exn) :
  PyStr.contains "429" (PyStr.lower (exn_message e))
  || PyStr.contains "rate limit" (PyStr.lower (exn_message e))
  || PyStr.contains "too many requests" (PyStr.lower (exn_message e)) = true ->
  is_rate_limit_error e = true.
Proof.
  destruct e as [cls m s cause]; intros H.
  cbn [is_rate_limit_error].
  rewrite H; reflexivity.
Qed.

Lemma is_rate_limit_error_cause (e c : exn) :
  exn_cause e = Some c ->
  is_rate_limit_error c = true ->
  is_rate_limit_error e = true.
Proof.
  destruct e as [cls m s cause]; cbn [exn_cause]; intros -> Hc.
  cbn [is_rate_limit_error].
  match goal with |- (if ?b then _ else _) = _ => destruct b end;
    [reflexivity|].
  rewrite Hc; reflexivity.
Qed.

Lemma classify_timeout (e : exn) :
  classify e = Timeout <-> is_timeout_error e = true.
Proof.
  unfold classify.
  destruct (is_timeout_error e), (is_rate_limit_error e);
    split; intros H; (reflexivity || discriminate).
Qed.

Lemma classify_rate_limited (e : exn) :
  classify e = RateLimited <->
  is_timeout_error e = false /\ is_rate_limit_error e = true.
Proof.
  unfold classify.
  destruct (is_timeout_error e), (is_rate_limit_error e);
    (split; [intros H | intros [H1 H2]]); try split; congruence.
Qed.

Lemma classify_other (e : exn) :
  classify e = Other <->
  is_timeout_error e = false /\ is_rate_limit_error e = false.
Proof.
  unfold classify.
  destruct (is_timeout_error e), (is_rate_limit_error e);
    (split; [intros H | intros [H1 H2]]); try split; congruence.
Qed.

(** C1.  The classifier on the examples of the specification: a failure
    whose message is "Read timed out" is a [Timeout]; the failure
    "HTTP Error 429: Too Many Requests" is [RateLimited]; the failure
    "Video unavailable" is [Other]; a failure whose cause is a timeout is a
    [Timeout].  The timeout test comes first (it wins even when the
    rate-limit test would also succeed), the rate-limit test second, and
    [Other] is what remains. *)
Theorem classify_examples_and_order :
  (forall e, exn_message e = "Read timed out" -> classify e = Timeout) /\
  classify (failure "Read timed out") = Timeout /\
  classify (failure "HTTP Error 429: Too Many Requests") = RateLimited /\
  classify (failure "Video unavailable") = Other /\
  (forall e c, exn_cause e = Some c -> is_timeout_error c = true ->
               classify e = Timeout) /\
  (forall e, is_timeout_error e = true -> classify e = Timeout) /\
  (forall e, is_timeout_error e = false -> is_rate_limit_error e = true ->
             classify e = RateLimited) /\
  (forall e, is_timeout_error e = false -> is_rate_limit_error e = false ->
             classify e = Other).
Proof.
  repeat split.
  - intros e He. apply classify_timeout, is_timeout_error_message.
    rewrite He. reflexivity.
  - intros e c He Hc. apply classify_timeout.
    exact (is_timeout_error_cause e c He Hc).
  - intros e He. apply classify_timeout; exact He.
  - intros e Ht Hr. apply classify_rate_limited; split; assumption.
  - intros e Ht Hr. apply classify_other; split; assumption.
Qed.

Lemma classify_examples_and_order_witness :
  classify (failure_from "ERROR: unable to download video data"
                         (failure "Read timed out")) = Timeout /\
  classify (failure "HTTP Error 429: timed out") = Timeout.
Proof.
  destruct classify_examples_and_order
    as (_ & _ & _ & _ & Hcause & Hfirst & _ & _).
  split.
  - apply (Hcause _ (failure "Read timed out")); reflexivity.
  - apply Hfirst; reflexivity.
Defined.

(** ** One delivery *)

Lemma same_but_store_refl (w : world) : same_but_store w w.
Proof. repeat split. Qed.

Section WorkerProperties.

Variable extract_info : string -> result pyval.

#[local] Abbreviation fetch := (download_and_collect_metadata extract_info).
#[local] Abbreviation handle := (on_message extract_info).

Lemma fetch_and_store_raises (url : string) (w : world) (e : exn) :
  fetch url = Raise e ->
  fetch_and_store extract_info url w = (Raise e, w).
Proof.
  intros H. unfold fetch_and_store. unfold_worker. rewrite H. reflexivity.
Qed.

Lemma fetch_and_store_nothing (url : string) (w : world) (meta : pyval) :
  fetch url = Ok meta ->
  truthy meta = false ->
  fetch_and_store extract_info url w = (Ok tt, w).
Proof.
  intros H Hm. unfold fetch_and_store. unfold_worker.
  rewrite H, Hm. reflexivity.
Qed.

(** Lines 174 to 182 touch nothing but the metadata file. *)
Lemma fetch_and_store_frame (url : string) (w : world) :
  same_but_store w (snd (fetch_and_store extract_info url w)).
Proof.
  unfold fetch_and_store. unfold_worker.
  destruct (fetch url) as [meta|e]; [|apply same_but_store_refl].
  destruct (truthy meta); [|apply same_but_store_refl].
  destruct (load_metadata_from (metadata_json w)) as [records|e];
    [|apply same_but_store_refl].
  destruct (list_append records meta) as [records'|e];
    [|apply same_but_store_refl].
  destruct (store_writable w) eqn:Hw; [|apply same_but_store_refl].
  destruct (title_preview meta); cbn; repeat split; cbn; congruence.
Qed.

Lemma on_message_empty (tag : nat) (body : string) (w : world) :
  PyStr.nonempty (PyStr.strip body) = false ->
  handle tag body w = (Ok tt, emit (BasicAck tag) w).
Proof.
  intros H. unfold on_message. rewrite H. reflexivity.
Qed.

Lemma on_message_completes (tag : nat) (body : string) (w w1 : world) :
  PyStr.nonempty (PyStr.strip body) = true ->
  fetch_and_store extract_info (PyStr.strip body) w = (Ok tt, w1) ->
  handle tag body w =
  (Ok tt, emit (Sleep DELAY_BETWEEN_DOWNLOADS_SEC) (emit (BasicAck tag) w1)).
Proof.
  intros H Hf. unfold on_message. rewrite H. cbn [negb].
  unfold try_except, mbind. rewrite Hf. reflexivity.
Qed.

Lemma on_message_fails (tag : nat) (body : string) (w w1 : world) (e : exn) :
  PyStr.nonempty (PyStr.strip body) = true ->
  fetch_and_store extract_info (PyStr.strip body) w = (Raise e, w1) ->
  handle tag body w =
  on_exception tag (video_id_or_unknown (PyStr.strip body)) e w1.
Proof.
  intros H Hf. unfold on_message. rewrite H. cbn [negb].
  unfold try_except, mbind. rewrite Hf. reflexivity.
Qed.

Lemma on_exception_timeout (tag : nat) (vid : string) (e : exn) (w : world) :
  classify e = Timeout ->
  on_exception tag vid e w =
  (Ok tt, World (metadata_json w) (store_writable w) (error_log w)
                (calls w ++ [BasicNack tag true; StopConsuming]) false
                true (rate_limit_occurred w)).
Proof.
  intros H. apply classify_timeout in H.
  unfold on_exception. rewrite H. unfold_worker. cbn.
  rewrite <- app_assoc. reflexivity.
Qed.

Lemma on_exception_rate_limited (tag : nat) (vid : string) (e : exn)
      (w : world) :
  classify e = RateLimited ->
  on_exception tag vid e w =
  (Ok tt, World (metadata_json w) (store_writable w)
                (error_log w ++ [LogLine vid (error_detail e)])
                (calls w ++ [BasicNack tag true; StopConsuming]) false
                (timeout_occurred w) true).
Proof.
  intros H. apply classify_rate_limited in H. destruct H as [Ht Hr].
  unfold on_exception. rewrite Ht, Hr. unfold_worker. cbn.
  rewrite <- app_assoc. reflexivity.
Qed.

Lemma on_exception_other (tag : nat) (vid : string) (e : exn) (w : world) :
  classify e = Other ->
  on_exception tag vid e w =
  (Ok tt, World (metadata_json w) (store_writable w)
                (error_log w ++ [LogLine vid (error_detail e)])
                (calls w ++ [BasicAck tag;
                             Sleep DELAY_BETWEEN_DOWNLOADS_SEC])
                (consuming w)
                (timeout_occurred w) (rate_limit_occurred w)).
Proof.
  intros H. apply classify_other in H. destruct H as [Ht Hr].
  unfold on_exception. rewrite Ht, Hr. unfold_worker. cbn.
  rewrite <- app_assoc. reflexivity.
Qed.

(** [on_message] itself never raises: every exception of the [try] block
    is consumed by the handler. *)
Lemma on_message_returns (tag : nat) (body : string) (w : world) :
  fst (handle tag body w) = Ok tt.
Proof.
  destruct (PyStr.nonempty (PyStr.strip body)) eqn:Hu.
  - destruct (fetch_and_store extract_info (PyStr.strip body) w)
      as [[[]|e] w1] eqn:Hf.
    + rewrite (on_message_completes _ _ _ _ Hu Hf). reflexivity.
    + rewrite (on_message_fails _ _ _ _ _ Hu Hf).
      destruct (classify e) eqn:Hc.
      * rewrite (on_exception_timeout _ _ _ _ Hc). reflexivity.
      * rewrite (on_exception_rate_limited _ _ _ _ Hc). reflexivity.
      * rewrite (on_exception_other _ _ _ _ Hc). reflexivity.
  - rewrite (on_message_empty _ _ _ Hu). reflexivity.
Qed.

Lemma new_calls_app (w w' : world) (evs : list event) :
  calls w' = calls w ++ evs -> new_calls w w' = evs.
Proof.
  intros H. unfold new_calls. rewrite H.
  rewrite skipn_app, skipn_all, Nat.sub_diag. reflexivity.
Qed.

Lemma new_log_lines_app (w w' : world) (ls : list log_line) :
  error_log w' = error_log w ++ ls -> new_log_lines w w' = ls.
Proof.
  intros H. unfold new_log_lines. rewrite H.
  rewrite skipn_app, skipn_all, Nat.sub_diag. reflexivity.
Qed.

(** What handling a delivery with a non-empty payload does, by the way
    lines 174 to 182 end. *)
Lemma on_message_cases (tag : nat) (body : string) (w : world) :
  PyStr.nonempty (PyStr.strip body) = true ->
  let r := fetch_and_store extract_info (PyStr.strip body) w in
  let w' := snd (handle tag body w) in
  metadata_json w' = metadata_json (snd r) /\
  store_writable w' = store_writable w /\
  match fst r with
  | Ok _ =>
      new_calls w w' = [BasicAck tag; Sleep DELAY_BETWEEN_DOWNLOADS_SEC] /\
      new_log_lines w w' = [] /\
      consuming w' = consuming w /\
      timeout_occurred w' = timeout_occurred w /\
      rate_limit_occurred w' = rate_limit_occurred w
  | Raise e =>
      match classify e with
      | Timeout =>
          new_calls w w' = [BasicNack tag true; StopConsuming] /\
          new_log_lines w w' = [] /\
          consuming w' = false /\
          timeout_occurred w' = true /\
          rate_limit_occurred w' = rate_limit_occurred w
      | RateLimited =>
          new_calls w w' = [BasicNack tag true; StopConsuming] /\
          new_log_lines w w' =
            [LogLine (video_id_or_unknown (PyStr.strip body))
                     (error_detail e)] /\
          consuming w' = false /\
          timeout_occurred w' = timeout_occurred w /\
          rate_limit_occurred w' = true
      | Other =>
          new_calls w w' =
            [BasicAck tag; Sleep DELAY_BETWEEN_DOWNLOADS_SEC] /\
          new_log_lines w w' =
            [LogLine (video_id_or_unknown (PyStr.strip body))
                     (error_detail e)] /\
          consuming w' = consuming w /\
          timeout_occurred w' = timeout_occurred w /\
          rate_limit_occurred w' = rate_limit_occurred w
      end
  end.
Proof.
  intros Hu r w'. subst r w'.
  pose proof (fetch_and_store_frame (PyStr.strip body) w) as Hframe.
  destruct (fetch_and_store extract_info (PyStr.strip body) w)
    as [[[]|e] w1] eqn:Hf; cbn [fst snd] in *;
    destruct Hframe as (Hsw & Hlog & Hcalls & Hcons & Hto & Hrl).
  - rewrite (on_message_completes _ _ _ _ Hu Hf). cbn.
    repeat split; try congruence.
    + apply new_calls_app. cbn. rewrite Hcalls, <- app_assoc. reflexivity.
    + apply new_log_lines_app. cbn. rewrite Hlog, app_nil_r. reflexivity.
  - rewrite (on_message_fails _ _ _ _ _ Hu Hf).
    destruct (classify e) eqn:Hc.
    + rewrite (on_exception_timeout _ _ _ _ Hc). cbn.
      repeat split; try congruence.
      * apply new_calls_app. cbn. rewrite Hcalls. reflexivity.
      * apply new_log_lines_app. cbn. rewrite Hlog, app_nil_r. reflexivity.
    + rewrite (on_exception_rate_limited _ _ _ _ Hc). cbn.
      repeat split; try congruence.
      * apply new_calls_app. cbn. rewrite Hcalls. reflexivity.
      * apply new_log_lines_app. cbn. rewrite Hlog. reflexivity.
    + rewrite (on_exception_other _ _ _ _ Hc). cbn.
      repeat split; try congruence.
      * apply new_calls_app. cbn. rewrite Hcalls. reflexivity.
      * apply new_log_lines_app. cbn. rewrite Hlog. reflexivity.
Qed.

Lemma start_consuming_stopped (deliveries : list (nat * string)) (w : world) :
  consuming w = false ->
  start_consuming extract_info deliveries w = (Ok tt, w).
Proof.
  intros H. destruct deliveries as [|[tag body] rest]; cbn.
  - reflexivity.
  - rewrite H. reflexivity.
Qed.

(** What handling a delivery does when the fetch itself raises. *)
Lemma on_message_fetch_raises
      (tag : nat) (body : string) (w : world) (e : exn) :
  PyStr.nonempty (PyStr.strip body) = true ->
  fetch (PyStr.strip body) = Raise e ->
  let w' := snd (handle tag body w) in
  let line :=
    LogLine (video_id_or_unknown (PyStr.strip body)) (error_detail e) in
  metadata_json w' = metadata_json w /\
  match classify e with
  | Timeout =>
      new_calls w w' = [BasicNack tag true; StopConsuming] /\
      new_log_lines w w' = [] /\
      consuming w' = false /\
      timeout_occurred w' = true
  | RateLimited =>
      new_calls w w' = [BasicNack tag true; StopConsuming] /\
      new_log_lines w w' = [line] /\
      consuming w' = false /\
      rate_limit_occurred w' = true
  | Other =>
      new_calls w w' = [BasicAck tag; Sleep DELAY_BETWEEN_DOWNLOADS_SEC] /\
      new_log_lines w w' = [line] /\
      consuming w' = consuming w /\
      timeout_occurred w' = timeout_occurred w /\
      rate_limit_occurred w' = rate_limit_occurred w
  end.
Proof.
  intros Hu Hf w' line. subst w' line.
  pose proof (on_message_cases tag body w Hu) as H. cbv zeta in H.
  rewrite (fetch_and_store_raises _ w _ Hf) in H. cbn [fst snd] in H.
  destruct H as (Hstore & _ & H). split; [exact Hstore|].
  destruct (classify e); repeat split; apply H.
Qed.

(** C2.  When the fetch of a delivery fails with a [Timeout] or a
    [RateLimited] failure, the delivery is nacked with [requeue=True], no
    ack is sent, and the consuming loop is stopped; a timeout writes
    nothing to the error log and a rate limit writes exactly one line. *)
Theorem systemic_failure_requeues_and_halts
        (tag : nat) (body : string) (w : world) (e : exn) :
  PyStr.nonempty (PyStr.strip body) = true ->
  fetch (PyStr.strip body) = Raise e ->
  classify e = Timeout \/ classify e = RateLimited ->
  let w' := snd (handle tag body w) in
  new_calls w w' = [BasicNack tag true; StopConsuming] /\
  (forall t, ~ In (BasicAck t) (new_calls w w')) /\
  consuming w' = false /\
  (forall rest, start_consuming extract_info rest w' = (Ok tt, w')) /\
  (classify e = Timeout ->
   new_log_lines w w' = [] /\ timeout_occurred w' = true) /\
  (classify e = RateLimited ->
   new_log_lines w w' =
     [LogLine (video_id_or_unknown (PyStr.strip body)) (error_detail e)] /\
   rate_limit_occurred w' = true).
Proof.
  intros Hu Hf Hc w'. subst w'.
  pose proof (on_message_fetch_raises tag body w e Hu Hf) as H.
  cbv zeta in H. destruct H as (_ & H).
  assert (Hcalls : new_calls w (snd (handle tag body w)) =
                   [BasicNack tag true; StopConsuming]).
  { destruct Hc as [Hc|Hc]; rewrite Hc in H; apply H. }
  split; [exact Hcalls|].
  split.
  { intros t Hin. rewrite Hcalls in Hin.
    destruct Hin as [Hin|[Hin|[]]]; discriminate. }
  assert (Hstop : consuming (snd (handle tag body w)) = false).
  { destruct Hc as [Hc|Hc]; rewrite Hc in H; apply H. }
  split; [exact Hstop|].
  split; [intros rest; exact (start_consuming_stopped rest _ Hstop)|].
  split; intros Hv; rewrite Hv in H;
    destruct H as (_ & Hlog & _ & Hflag); split; assumption.
Qed.

(** C3, amended.  A delivery is acked only on one of four grounds: its
    payload is empty, the fetch returned a record, the fetch returned
    nothing, or the fetch failed with a failure classified [Other]. *)
Theorem ack_only_on_four_grounds (tag : nat) (body : string) (w : world) :
  In (BasicAck tag) (new_calls w (snd (handle tag body w))) ->
  PyStr.strip body = ""
  \/ (exists meta, fetch (PyStr.strip body) = Ok meta /\ truthy meta = true)
  \/ (exists meta, fetch (PyStr.strip body) = Ok meta /\ truthy meta = false)
  \/ (exists e, fetch (PyStr.strip body) = Raise e /\ classify e = Other).
Proof.
  intros Hin.
  destruct (PyStr.nonempty (PyStr.strip body)) eqn:Hu.
  - destruct (fetch (PyStr.strip body)) as [meta|e] eqn:Hf.
    + destruct (truthy meta) eqn:Hm.
      * right; left. exists meta. split; [reflexivity|assumption].
      * right; right; left. exists meta. split; [reflexivity|assumption].
    + right; right; right. exists e. split; [reflexivity|].
      pose proof (on_message_fetch_raises tag body w e Hu Hf) as H.
      cbv zeta in H. destruct H as (_ & H).
      destruct (classify e); [ | |reflexivity];
        destruct H as (Hcalls & _); rewrite Hcalls in Hin;
        destruct Hin as [Hin|[Hin|[]]]; discriminate.
  - left. destruct (PyStr.strip body); [reflexivity|discriminate].
Qed.

(** C8.  The delay of 5 seconds follows the ack when lines 174 to 182 end
    without an exception and when the exception is classified [Other];
    no sleep follows a [Timeout] or a [RateLimited] halt. *)
Theorem delay_after_success_and_skip_only
        (tag : nat) (body : string) (w : world) :
  PyStr.nonempty (PyStr.strip body) = true ->
  let w' := snd (handle tag body w) in
  DELAY_BETWEEN_DOWNLOADS_SEC = 5 /\
  match fst (fetch_and_store extract_info (PyStr.strip body) w) with
  | Ok _ => new_calls w w' = [BasicAck tag; Sleep 5]
  | Raise e =>
      match classify e with
      | Other => new_calls w w' = [BasicAck tag; Sleep 5]
      | Timeout | RateLimited =>
          consuming w' = false /\
          forall seconds, ~ In (Sleep seconds) (new_calls w w')
      end
  end.
Proof.
  intros Hu w'. subst w'. split; [reflexivity|].
  pose proof (on_message_cases tag body w Hu) as H. cbv zeta in H.
  destruct H as (_ & _ & H).
  destruct (fst (fetch_and_store extract_info (PyStr.strip body) w))
    as [[]|e].
  - apply H.
  - destruct (classify e); destruct H as (Hcalls & _ & Hcons & _);
      try exact Hcalls;
      (split; [exact Hcons|]); intros n Hin; rewrite Hcalls in Hin;
      destruct Hin as [Hin|[Hin|[]]]; discriminate.
Qed.

(** C9.  When the fetch of a delivery raises, whatever the verdict, the
    metadata file is what it was before the delivery. *)
Theorem failed_fetch_leaves_store
        (tag : nat) (body : string) (w : world) (e : exn) :
  fetch (PyStr.strip body) = Raise e ->
  metadata_json (snd (handle tag body w)) = metadata_json w.
Proof.
  intros Hf.
  destruct (PyStr.nonempty (PyStr.strip body)) eqn:Hu.
  - apply (on_message_fetch_raises tag body w e Hu Hf).
  - rewrite (on_message_empty _ _ _ Hu). reflexivity.
Qed.

Fixpoint mentions_429_is_rate_limit (e : exn) :
  mentions_429 e = true -> is_rate_limit_error e = true.
Proof.
  destruct e as [cls m s [c|]]; intros H.
  - cbn [mentions_429] in H. apply orb_true_iff in H. destruct H as [H|H].
    + apply is_rate_limit_error_message. rewrite H. reflexivity.
    + apply (is_rate_limit_error_cause _ c); [reflexivity|].
      apply mentions_429_is_rate_limit. exact H.
  - cbn [mentions_429] in H. rewrite orb_false_r in H.
    apply is_rate_limit_error_message. rewrite H. reflexivity.
Qed.

(** C10.  A failure without a timeout signature whose message, or the
    message of one of its causes, contains the digits 429 anywhere is
    classified [RateLimited], and the worker halts on it: the delivery is
    nacked, the loop is stopped and the rate-limit flag is set. *)
Theorem digits_429_halt_the_worker
        (tag : nat) (body : string) (w : world) (e : exn) :
  PyStr.nonempty (PyStr.strip body) = true ->
  fetch (PyStr.strip body) = Raise e ->
  is_timeout_error e = false ->
  mentions_429 e = true ->
  let w' := snd (handle tag body w) in
  classify e = RateLimited /\
  new_calls w w' = [BasicNack tag true; StopConsuming] /\
  consuming w' = false /\
  rate_limit_occurred w' = true.
Proof.
  intros Hu Hf Ht Hm w'. subst w'.
  assert (Hc : classify e = RateLimited).
  { apply classify_rate_limited. split; [exact Ht|].
    apply mentions_429_is_rate_limit; exact Hm. }
  pose proof (on_message_fetch_raises tag body w e Hu Hf) as H.
  cbv zeta in H. destruct H as (_ & H). rewrite Hc in H.
  destruct H as (Hcalls & _ & Hcons & Hrl).
  repeat split; assumption.
Qed.

(** ** The metadata store *)

Lemma title_preview_raises_other (meta : pyval) (e : exn) :
  title_preview meta = Raise e -> classify e = Other.
Proof.
  unfold title_preview. intros H.
  destruct meta as [ | | | | |d]; try (inversion H; subst; reflexivity).
  destruct (py_or (dict_get "title" d) (PStr ""));
    inversion H; subst; reflexivity.
Qed.

Lemma on_message_stores_record
      (tag : nat) (body : string) (w : world) (meta : pyval)
      (l : list pyval) :
  PyStr.nonempty (PyStr.strip body) = true ->
  fetch (PyStr.strip body) = Ok meta ->
  truthy meta = true ->
  load w = Ok (PList l) ->
  store_writable w = true ->
  let w' := snd (handle tag body w) in
  load w' = Ok (PList (l ++ [meta])) /\
  store_writable w' = true /\
  consuming w' = consuming w.
Proof.
  intros Hu Hf Hm Hl Hw w'. subst w'.
  pose proof (on_message_cases tag body w Hu) as H. cbv zeta in H.
  assert (Hr : exists r,
             fetch_and_store extract_info (PyStr.strip body) w =
             (r, World (Document (PList (l ++ [meta]))) (store_writable w)
                       (error_log w) (calls w) (consuming w)
                       (timeout_occurred w) (rate_limit_occurred w))
             /\ (forall e, r = Raise e -> classify e = Other)).
  { unfold fetch_and_store. unfold_worker. rewrite Hf, Hm.
    unfold load in Hl. rewrite Hl. cbn [list_append]. rewrite Hw.
    destruct (title_preview meta) as [[]|e] eqn:Ht.
    - eexists; split; [reflexivity|]. intros e He; discriminate.
    - eexists; split; [reflexivity|]. intros e' He. inversion He; subst.
      exact (title_preview_raises_other _ _ Ht). }
  destruct Hr as (r & Hr & Hother). rewrite Hr in H. cbn [fst snd] in H.
  destruct H as (Hstore & Hsw & H).
  unfold load. rewrite Hstore. cbn.
  split; [reflexivity|]. split; [congruence|].
  destruct r as [[]|e].
  - apply H.
  - rewrite (Hother e eq_refl) in H. apply H.
Qed.

Lemma start_consuming_step
      (tag : nat) (body : string) (rest : list (nat * string)) (w : world) :
  consuming w = true ->
  start_consuming extract_info ((tag, body) :: rest) w =
  start_consuming extract_info rest (snd (handle tag body w)).
Proof.
  intros H. cbn [start_consuming]. rewrite H.
  pose proof (on_message_returns tag body w) as Hr.
  destruct (handle tag body w) as [r w']. cbn [fst snd] in *.
  rewrite Hr. reflexivity.
Qed.

Lemma start_consuming_appends (deliveries : list (nat * string)) :
  forall (w : world) (l : list pyval),
    Forall (successful_fetch extract_info) deliveries ->
    load w = Ok (PList l) ->
    store_writable w = true ->
    consuming w = true ->
    let w' := snd (start_consuming extract_info deliveries w) in
    load w' = Ok (PList (l ++ fetched_records extract_info deliveries)).
Proof.
  induction deliveries as [|[tag body] rest IH]; intros w l Hall Hl Hw Hc.
  - cbn. rewrite app_nil_r. exact Hl.
  - inversion Hall as [|d ds [Hu (meta & Hf & Hm)] Hrest]; subst.
    cbn [snd] in Hu, Hf.
    cbv zeta. rewrite (start_consuming_step _ _ _ _ Hc).
    destruct (on_message_stores_record tag body w meta l Hu Hf Hm Hl Hw)
      as (Hl' & Hw' & Hc').
    cbn [fetched_records]. rewrite Hf, Hm.
    rewrite (IH _ (l ++ [meta]) Hrest Hl' Hw'); [|congruence].
    rewrite <- app_assoc. reflexivity.
Qed.

Lemma fetched_records_all (deliveries : list (nat * string)) :
  Forall (successful_fetch extract_info) deliveries ->
  Forall2 (fetched extract_info) deliveries
          (fetched_records extract_info deliveries).
Proof.
  induction 1 as [|[tag body] rest [Hu (meta & Hf & Hm)] Hrest IH].
  - constructor.
  - cbn [snd] in Hf. cbn [fetched_records]. rewrite Hf, Hm.
    constructor; [exact Hf|exact IH].
Qed.

(** C4.  Starting from a store that loads as empty, after N deliveries
    whose fetches each return a record the store loads as exactly those N
    records, in the order of arrival. *)
Theorem store_append_invariant
        (deliveries : list (nat * string)) (w : world) :
  load w = Ok (PList []) ->
  store_writable w = true ->
  consuming w = true ->
  Forall (successful_fetch extract_info) deliveries ->
  let w' := snd (start_consuming extract_info deliveries w) in
  exists records,
    load w' = Ok (PList records) /\
    List.length records = List.length deliveries /\
    Forall2 (fetched extract_info) deliveries records.
Proof.
  intros Hl Hw Hc Hall w'. subst w'.
  exists (fetched_records extract_info deliveries).
  pose proof (fetched_records_all deliveries Hall) as H2.
  split; [|split].
  - exact (start_consuming_appends deliveries w [] Hall Hl Hw Hc).
  - symmetry. exact (Forall2_length H2).
  - exact H2.
Qed.

(** ** The consuming loop and the exit status *)

Lemma delivery_verdict_empty (body : string) (w : world) :
  PyStr.nonempty (PyStr.strip body) = false ->
  delivery_verdict extract_info body w = None.
Proof.
  intros H. unfold delivery_verdict. rewrite H. reflexivity.
Qed.

Lemma delivery_verdict_nonempty (body : string) (w : world) :
  PyStr.nonempty (PyStr.strip body) = true ->
  delivery_verdict extract_info body w =
  match fst (fetch_and_store extract_info (PyStr.strip body) w) with
  | Ok _ => None
  | Raise e => Some (classify e)
  end.
Proof.
  intros H. unfold delivery_verdict. rewrite H. reflexivity.
Qed.

(** The flags at the end of the loop tell the halt reason. *)
Lemma start_consuming_flags (deliveries : list (nat * string)) :
  forall w : world,
    consuming w = true ->
    timeout_occurred w = false ->
    rate_limit_occurred w = false ->
    let r := start_consuming extract_info deliveries w in
    fst r = Ok tt /\
    match halt_reason extract_info deliveries w with
    | Some Timeout => timeout_occurred (snd r) = true
    | Some RateLimited =>
        timeout_occurred (snd r) = false /\
        rate_limit_occurred (snd r) = true
    | Some Other => False
    | None =>
        timeout_occurred (snd r) = false /\
        rate_limit_occurred (snd r) = false
    end.
Proof.
  induction deliveries as [|[tag body] rest IH]; intros w Hc Ht Hr.
  - cbn. auto.
  - cbv zeta. rewrite (start_consuming_step _ _ _ _ Hc).
    cbn [halt_reason].
    destruct (PyStr.nonempty (PyStr.strip body)) eqn:Hu.
    + rewrite (delivery_verdict_nonempty _ _ Hu).
      pose proof (on_message_cases tag body w Hu) as H. cbv zeta in H.
      destruct H as (_ & _ & H).
      destruct (fst (fetch_and_store extract_info (PyStr.strip body) w))
        as [[]|e].
      * destruct H as (_ & _ & Hc' & Ht' & Hr').
        apply IH; congruence.
      * destruct (classify e);
          destruct H as (_ & _ & Hc' & Ht' & Hr').
        -- rewrite (start_consuming_stopped _ _ Hc'). cbn. auto.
        -- rewrite (start_consuming_stopped _ _ Hc'). cbn.
           repeat split; congruence.
        -- apply IH; congruence.
    + rewrite (delivery_verdict_empty _ _ Hu).
      rewrite (on_message_empty _ _ _ Hu). cbn [snd].
      apply IH; assumption.
Qed.

(** On payloads that decode: once the consuming loop has returned, the
    exit status is 1 when the halt reason is [Timeout] or [RateLimited],
    and 0 when the deliveries ran out without either of them. *)
Theorem exit_status_tells_halt_reason
        (deliveries : list (nat * string))
        (store : file) (writable : bool) (log : list log_line) :
  let w0 := fresh store writable log in
  match halt_reason extract_info deliveries w0 with
  | Some Timeout | Some RateLimited =>
      fst (run_consumer extract_info deliveries w0) = 1%Z
  | Some Other => False
  | None => fst (run_consumer extract_info deliveries w0) = 0%Z
  end.
Proof.
  intros w0.
  destruct (start_consuming_flags deliveries w0 eq_refl eq_refl eq_refl)
    as (Hok & H).
  unfold run_consumer.
  destruct (start_consuming extract_info deliveries w0) as [r w'].
  cbn [fst snd] in *. subst r.
  destruct (halt_reason extract_info deliveries w0) as [[ | | ]|].
  - rewrite H. reflexivity.
  - destruct H as [Ht Hr]. rewrite Ht, Hr. reflexivity.
  - exact H.
  - destruct H as [Ht Hr]. rewrite Ht, Hr. reflexivity.
Qed.

End WorkerProperties.

(** ** The metadata file on its own *)

(** The four states of the file that [load_metadata] absorbs. *)
Lemma load_metadata_tolerates (f : file) :
  f = Absent \/ f = Unreadable \/ f = Blank \/ f = Malformed ->
  load_metadata_from f = Ok (PList []).
Proof.
  intros [->|[->|[->| ->]]]; reflexivity.
Qed.

(** C5.  On a file whose bytes are not valid UTF-8, [load_metadata] raises
    [UnicodeDecodeError] instead of returning the empty list: the [except]
    clause lists [JSONDecodeError] and [OSError] only. *)
Theorem load_metadata_raises_on_undecodable_file :
  forall (writable : bool) (log : list log_line),
    fst (load_metadata (fresh NotUtf8 writable log))
    = Raise unicode_decode_error /\
    load_metadata_from Absent = Ok (PList []) /\
    load_metadata_from Blank = Ok (PList []) /\
    load_metadata_from Malformed = Ok (PList []) /\
    load_metadata_from Unreadable = Ok (PList []).
Proof.
  intros writable log. repeat split.
Qed.

(** ** The producer *)

Lemma publish_loop_filters (links : list pyval) :
  forall (sent : list string) (published : nat),
    Producer.publish_loop links sent published =
    (sent ++ Producer.well_formed_entries links,
     published + List.length (Producer.well_formed_entries links)).
Proof.
  induction links as [|url rest IH]; intros sent published.
  - cbn. rewrite app_nil_r, Nat.add_0_r. reflexivity.
  - cbn [Producer.publish_loop Producer.well_formed_entries].
    destruct url as [ |b|z|s|l|d];
      cbn [truthy is_str negb orb Producer.well_formed].
    + apply IH.
    + destruct b; cbn; apply IH.
    + destruct (negb (z =? 0)%Z); cbn; apply IH.
    + destruct (PyStr.nonempty s); cbn [negb orb].
      * rewrite IH. cbn [List.length app]. rewrite <- app_assoc.
        f_equal. lia.
      * apply IH.
    + destruct l; cbn; apply IH.
    + destruct d; cbn; apply IH.
Qed.

(** C6.  For every list of links, the bodies published are the non-empty
    strings of the list, in order, and the count that is printed is their
    number; an empty list publishes nothing and prints that there are no
    links. *)
Theorem published_count_is_well_formed_count (links : list pyval) :
  Producer.sent (Producer.main links) = Producer.well_formed_entries links /\
  List.length (Producer.sent (Producer.main links))
  = List.length (Producer.well_formed_entries links) /\
  Producer.output (Producer.main links) =
  match links with
  | [] => Producer.NoLinks
  | _ :: _ =>
      Producer.PublishedTasks
        (List.length (Producer.well_formed_entries links))
  end.
Proof.
  destruct links as [|url rest].
  - repeat split.
  - unfold Producer.main. cbn [truthy negb].
    rewrite publish_loop_filters. cbn [Producer.sent Producer.output app].
    repeat split.
Qed.

(** ** The properties on a concrete run *)

(** The end-to-end scenario: AAA is stored, the empty payload is acked
    without a fetch, BBB is rate limited, logged once and requeued, and the
    process exits with status 1. *)
Example end_to_end_scenario :
  run_consumer Scenario.extract_info Scenario.queue Scenario.start =
  (1%Z,
   World (Document (PList [Scenario.record_AAA])) true
         [LogLine "BBB" "HTTP Error 429: Too Many Requests"]
         [BasicAck 1; Sleep 5; BasicAck 2; BasicNack 3 true; StopConsuming]
         false false true).
Proof. vm_compute. reflexivity. Qed.

Lemma systemic_failure_requeues_and_halts_witness :
  new_calls Scenario.start
            (snd (on_message Scenario.extract_info 3 Scenario.url_BBB
                             Scenario.start))
  = [BasicNack 3 true; StopConsuming]
  /\ new_log_lines Scenario.start
                   (snd (on_message Scenario.extract_info 3 Scenario.url_BBB
                                    Scenario.start))
     = [LogLine "BBB" "HTTP Error 429: Too Many Requests"].
Proof.
  destruct (systemic_failure_requeues_and_halts
              Scenario.extract_info 3 Scenario.url_BBB Scenario.start
              Scenario.too_many_requests)
    as (Hcalls & _ & _ & _ & _ & Hrate).
  - reflexivity.
  - reflexivity.
  - right. reflexivity.
  - split; [exact Hcalls|]. apply Hrate. reflexivity.
Defined.

(** C3 as the specification states it fails when the fetch returns
    nothing: the delivery of CCC is acked although its payload is not
    empty, no record was produced and nothing was raised. *)
Lemma acked_on_three_grounds_fails :
  ~ acked_on_three_grounds Scenario.extract_info 1 Scenario.url_CCC
      Scenario.start.
Proof.
  unfold acked_on_three_grounds. intros H.
  destruct H as [H|[(meta & Hf & Hm)|(e & He & _)]].
  - vm_compute. left. reflexivity.
  - vm_compute in H. discriminate.
  - vm_compute in Hf. inversion Hf; subst. discriminate.
  - vm_compute in He. discriminate.
Qed.

Lemma ack_only_on_four_grounds_witness :
  PyStr.strip Scenario.url_CCC = ""
  \/ (exists meta,
        download_and_collect_metadata Scenario.extract_info
          (PyStr.strip Scenario.url_CCC) = Ok meta /\ truthy meta = true)
  \/ (exists meta,
        download_and_collect_metadata Scenario.extract_info
          (PyStr.strip Scenario.url_CCC) = Ok meta /\ truthy meta = false)
  \/ (exists e,
        download_and_collect_metadata Scenario.extract_info
          (PyStr.strip Scenario.url_CCC) = Raise e /\ classify e = Other).
Proof.
  apply (ack_only_on_four_grounds Scenario.extract_info 1 Scenario.url_CCC
                                  Scenario.start).
  vm_compute. left. reflexivity.
Defined.

Lemma store_append_invariant_witness :
  exists records,
    load (snd (start_consuming Scenario.extract_info
                 [(1, Scenario.url_AAA); (2, Scenario.url_DDD)]
                 Scenario.start))
    = Ok (PList records) /\
    List.length records = 2 /\
    Forall2 (fetched Scenario.extract_info)
            [(1, Scenario.url_AAA); (2, Scenario.url_DDD)] records.
Proof.
  apply (store_append_invariant Scenario.extract_info
           [(1, Scenario.url_AAA); (2, Scenario.url_DDD)] Scenario.start).
  - reflexivity.
  - reflexivity.
  - reflexivity.
  - repeat constructor.
    + exists Scenario.record_AAA. split; reflexivity.
    + exists Scenario.record_DDD. split; reflexivity.
Defined.

Lemma delay_after_success_and_skip_only_witness :
  new_calls Scenario.start
            (snd (on_message Scenario.extract_info 1 Scenario.url_AAA
                             Scenario.start))
  = [BasicAck 1; Sleep 5].
Proof.
  apply (delay_after_success_and_skip_only
           Scenario.extract_info 1 Scenario.url_AAA Scenario.start).
  reflexivity.
Defined.

Lemma failed_fetch_leaves_store_witness :
  metadata_json (snd (on_message Scenario.extract_info 3 Scenario.url_BBB
                                 Scenario.start))
  = Absent.
Proof.
  apply (failed_fetch_leaves_store
           Scenario.extract_info 3 Scenario.url_BBB Scenario.start
           Scenario.too_many_requests).
  reflexivity.
Defined.

Lemma digits_429_halt_the_worker_witness :
  classify Scenario.unavailable_429 = RateLimited /\
  consuming (snd (on_message Scenario.extract_info 4 Scenario.url_429
                             Scenario.start)) = false.
Proof.
  destruct (digits_429_halt_the_worker
              Scenario.extract_info 4 Scenario.url_429 Scenario.start
              Scenario.unavailable_429)
    as (Hc & _ & Hstop & _).
  - reflexivity.
  - reflexivity.
  - reflexivity.
  - reflexivity.
  - split; assumption.
Defined.


(** * Further properties *)

(** ** Strings *)

Local Open Scope string_scope.

Lemma append_assoc (a b c : string) : (a ++ b) ++ c = a ++ b ++ c.
Proof.
  induction a as [|x a IH]; cbn; [reflexivity|]. rewrite IH. reflexivity.
Qed.

Lemma append_nil_r (a : string) : a ++ "" = a.
Proof.
  induction a as [|x a IH]; cbn; [reflexivity|]. rewrite IH. reflexivity.
Qed.

Lemma length_append (a b : string) :
  String.length (a ++ b) = String.length a + String.length b.
Proof.
  induction a as [|x a IH]; cbn; [reflexivity|]. rewrite IH. reflexivity.
Qed.

Lemma prefix_nil (t : string) : prefix "" t = true.
Proof. destruct t; reflexivity. Qed.

Lemma prefix_app (p t : string) : prefix p (p ++ t) = true.
Proof.
  induction p as [|c p IH]; cbn.
  - apply prefix_nil.
  - destruct (ascii_dec c c) as [_|Hne]; [exact IH|contradiction].
Qed.

Lemma prefix_inv (p s : string) :
  prefix p s = true -> exists t, s = p ++ t.
Proof.
  revert s. induction p as [|c p IH]; intros s H.
  - exists s. reflexivity.
  - destruct s as [|x s]; cbn in H; [discriminate|].
    destruct (ascii_dec c x) as [->|_]; [|discriminate].
    destruct (IH s H) as [t ->]. exists t. reflexivity.
Qed.

Lemma prefix_app_l (p s t : string) :
  prefix p s = true -> prefix p (s ++ t) = true.
Proof.
  intros H. destruct (prefix_inv p s H) as [u ->].
  rewrite append_assoc. apply prefix_app.
Qed.

Lemma contains_here (p s : string) :
  prefix p s = true -> PyStr.contains p s = true.
Proof.
  intros H. destruct s; cbn [PyStr.contains]; rewrite H; reflexivity.
Qed.

Lemma contains_cons (p : string) (c : ascii) (s : string) :
  PyStr.contains p s = true -> PyStr.contains p (String c s) = true.
Proof.
  intros H. cbn [PyStr.contains].
  destruct (prefix p (String c s)); [reflexivity|exact H].
Qed.

Lemma contains_app_l (p s t : string) :
  PyStr.contains p s = true -> PyStr.contains p (s ++ t) = true.
Proof.
  induction s as [|c s IH]; intros H.
  - cbn [PyStr.contains] in H.
    destruct (prefix p "") eqn:Hp; [|discriminate].
    apply contains_here. exact (prefix_app_l p "" t Hp).
  - cbn [PyStr.contains] in H.
    destruct (prefix p (String c s)) eqn:Hp.
    + apply contains_here. exact (prefix_app_l p _ t Hp).
    + cbn [append]. apply contains_cons. exact (IH H).
Qed.

Lemma contains_app_r (p s t : string) :
  PyStr.contains p t = true -> PyStr.contains p (s ++ t) = true.
Proof.
  intros H. induction s as [|c s IH].
  - exact H.
  - cbn [append]. apply contains_cons. exact IH.
Qed.

Lemma contains_inv (p s : string) :
  PyStr.contains p s = true -> exists a b, s = a ++ p ++ b.
Proof.
  induction s as [|c s IH]; intros H; cbn [PyStr.contains] in H.
  - destruct (prefix p "") eqn:Hp; [|discriminate].
    destruct (prefix_inv _ _ Hp) as [t Ht]. exists "", t. exact Ht.
  - destruct (prefix p (String c s)) eqn:Hp.
    + destruct (prefix_inv _ _ Hp) as [t Ht]. exists "", t. exact Ht.
    + destruct (IH H) as (a & b & ->). exists (String c a), b. reflexivity.
Qed.

(** [split] finds the separator exactly when [in] does. *)
Lemma split_once_none (sep s : string) :
  PyStr.split_once sep s = None <-> PyStr.contains sep s = false.
Proof.
  induction s as [|c s IH]; cbn [PyStr.split_once PyStr.contains].
  - destruct (prefix sep ""); split; intros H; (reflexivity || discriminate).
  - destruct (prefix sep (String c s)).
    + split; intros H; discriminate.
    + destruct (PyStr.split_once sep s) as [[a b]|].
      * split; intros H; [discriminate|].
        apply IH in H. discriminate.
      * split; intros _; [apply IH|]; reflexivity.
Qed.

Lemma drop_app (p t : string) : PyStr.drop (String.length p) (p ++ t) = t.
Proof.
  induction p as [|c p IH]; cbn.
  - destruct t; reflexivity.
  - exact IH.
Qed.

Lemma prefix_drop (sep s : string) :
  prefix sep s = true -> s = sep ++ PyStr.drop (String.length sep) s.
Proof.
  intros H. destruct (prefix_inv _ _ H) as [t ->].
  rewrite drop_app. reflexivity.
Qed.

(** The two halves that [split] returns, put around the separator, give the
    string back. *)
Lemma split_once_some (sep s a b : string) :
  PyStr.split_once sep s = Some (a, b) -> s = a ++ sep ++ b.
Proof.
  revert a b. induction s as [|c s IH]; intros a b H;
    cbn [PyStr.split_once] in H.
  - destruct (prefix sep "") eqn:Hp; [|discriminate].
    inversion H; subst a b. exact (prefix_drop _ _ Hp).
  - destruct (prefix sep (String c s)) eqn:Hp.
    + inversion H; subst a b. exact (prefix_drop _ _ Hp).
    + destruct (PyStr.split_once sep s) as [[a' b']|]; [|discriminate].
      inversion H; subst a b. rewrite (IH a' b' eq_refl) at 1. reflexivity.
Qed.

Lemma split_head_absent (sep s : string) :
  PyStr.contains sep s = false -> PyStr.split_head sep s = s.
Proof.
  intros H. unfold PyStr.split_head.
  apply split_once_none in H. rewrite H. reflexivity.
Qed.

Lemma contains_char_cons (c x : ascii) (s : string) :
  PyStr.contains (String c "") (String x s) = false ->
  x <> c /\ PyStr.contains (String c "") s = false.
Proof.
  cbn [PyStr.contains prefix]. intros H.
  destruct (ascii_dec c x) as [->|Hne].
  - rewrite prefix_nil in H. discriminate.
  - split; [congruence|exact H].
Qed.

(** Splitting at a character that does not occur before its first
    occurrence returns what is before it. *)
Lemma split_once_char (c : ascii) (a rest : string) :
  PyStr.contains (String c "") a = false ->
  PyStr.split_once (String c "") (a ++ String c rest) = Some (a, rest).
Proof.
  induction a as [|x a IH]; intros H.
  - cbn. destruct (ascii_dec c c) as [_|Hne]; [|contradiction].
    rewrite prefix_nil. reflexivity.
  - apply contains_char_cons in H. destruct H as [Hne H].
    cbn [append PyStr.split_once prefix].
    destruct (ascii_dec c x) as [->|_]; [contradiction|].
    rewrite (IH H). reflexivity.
Qed.

Lemma split_head_tail (c : ascii) (a tail : string) :
  PyStr.contains (String c "") a = false ->
  tail = "" \/ (exists rest, tail = String c rest) ->
  PyStr.split_head (String c "") (a ++ tail) = a.
Proof.
  intros H [->|[rest ->]].
  - rewrite append_nil_r. apply split_head_absent. exact H.
  - unfold PyStr.split_head. rewrite (split_once_char c a rest H).
    reflexivity.
Qed.

(** ** The video id of a url *)

Lemma video_id_from_watch_url (video_id tail : string) :
  PyStr.contains "&" video_id = false ->
  tail = "" \/ (exists rest, tail = "&" ++ rest) ->
  video_id_from_url (watch_url video_id ++ tail)
  = Some (PyStr.strip video_id).
Proof.
  intros Hid Htail. unfold video_id_from_url.
  assert (Hc : PyStr.contains "watch?v=" (watch_url video_id ++ tail) = true).
  { apply contains_app_l. unfold watch_url. apply contains_app_l.
    reflexivity. }
  rewrite Hc.
  assert (Hs : PyStr.split_tail "watch?v=" (watch_url video_id ++ tail)
               = Some (video_id ++ tail)).
  { unfold PyStr.split_tail, watch_url. rewrite append_assoc.
    cbn. rewrite prefix_nil. reflexivity. }
  rewrite Hs. rewrite (split_head_tail "&" video_id tail Hid Htail).
  reflexivity.
Qed.

(** X1.  The url that the scraper builds from a video id gives that id
    back, trimmed, whether or not further query parameters follow it. *)
Theorem video_id_of_watch_url (video_id tail : string) :
  PyStr.contains "&" video_id = false ->
  tail = "" \/ (exists rest, tail = "&" ++ rest) ->
  video_id_from_url (watch_url video_id ++ tail)
  = Some (PyStr.strip video_id).
Proof.
  exact (video_id_from_watch_url video_id tail).
Qed.

Lemma video_id_of_watch_url_witness :
  video_id_from_url (watch_url "dQw4w9WgXcQ" ++ "&t=42s&list=PL1")
  = Some "dQw4w9WgXcQ".
Proof.
  apply (video_id_of_watch_url "dQw4w9WgXcQ" "&t=42s&list=PL1").
  - reflexivity.
  - right. exists "t=42s&list=PL1". reflexivity.
Defined.

(** X2.  A short url [https://youtu.be/ID], with or without a query
    string, gives the trimmed id, provided the marker [watch?v=] does not
    occur after the host (it would take precedence). *)
Theorem video_id_of_short_url (video_id tail : string) :
  PyStr.contains "?" video_id = false ->
  PyStr.contains "watch?v=" (video_id ++ tail) = false ->
  tail = "" \/ (exists rest, tail = "?" ++ rest) ->
  video_id_from_url ("https://youtu.be/" ++ video_id ++ tail)
  = Some (PyStr.strip video_id).
Proof.
  intros Hid Hw Htail. unfold video_id_from_url.
  assert (Hc : PyStr.contains "watch?v="
                 ("https://youtu.be/" ++ video_id ++ tail) = false).
  { cbn. exact Hw. }
  rewrite Hc.
  assert (Hy : PyStr.contains "youtu.be/"
                 ("https://youtu.be/" ++ video_id ++ tail) = true).
  { apply contains_app_l. reflexivity. }
  rewrite Hy.
  assert (Hs : PyStr.split_tail "youtu.be/"
                 ("https://youtu.be/" ++ video_id ++ tail)
               = Some (video_id ++ tail)).
  { unfold PyStr.split_tail. cbn. rewrite prefix_nil. reflexivity. }
  rewrite Hs. rewrite (split_head_tail "?" video_id tail Hid Htail).
  reflexivity.
Qed.

Lemma video_id_of_short_url_witness :
  video_id_from_url ("https://youtu.be/" ++ "dQw4w9WgXcQ" ++ "?t=42")
  = Some "dQw4w9WgXcQ".
Proof.
  apply (video_id_of_short_url "dQw4w9WgXcQ" "?t=42").
  - reflexivity.
  - reflexivity.
  - right. exists "t=42". reflexivity.
Defined.

(** X3.  [video_id_from_url] returns [None] exactly for the urls that
    contain neither [watch?v=] nor [youtu.be/]; in particular the two
    [split(...)[1]] never fail. *)
Theorem video_id_none_iff (url : string) :
  video_id_from_url url = None <->
  PyStr.contains "watch?v=" url = false /\
  PyStr.contains "youtu.be/" url = false.
Proof.
  unfold video_id_from_url, PyStr.split_tail.
  destruct (PyStr.contains "watch?v=" url) eqn:Hw.
  - destruct (PyStr.split_once "watch?v=" url) as [[a b]|] eqn:Hs.
    + split; [discriminate|intros [H _]; discriminate].
    + apply split_once_none in Hs. congruence.
  - destruct (PyStr.contains "youtu.be/" url) eqn:Hy.
    + destruct (PyStr.split_once "youtu.be/" url) as [[a b]|] eqn:Hs.
      * split; [discriminate|intros [_ H]; discriminate].
      * apply split_once_none in Hs. congruence.
    + split; auto.
Qed.

(** ** The detail of an error-log line *)

Lemma length_take (n : nat) (s : string) :
  String.length (PyStr.take n s) = Nat.min n (String.length s).
Proof.
  revert s. induction n as [|n IH]; intros s.
  - reflexivity.
  - destruct s as [|c s]; cbn; [reflexivity|]. rewrite IH. reflexivity.
Qed.

Lemma all_chars_append (f : ascii -> bool) (a b : string) :
  PyStr.all_chars f (a ++ b) = PyStr.all_chars f a && PyStr.all_chars f b.
Proof.
  induction a as [|c a IH]; cbn; [reflexivity|].
  rewrite IH, andb_assoc. reflexivity.
Qed.

Lemma all_chars_take (f : ascii -> bool) (n : nat) (s : string) :
  PyStr.all_chars f s = true -> PyStr.all_chars f (PyStr.take n s) = true.
Proof.
  revert s. induction n as [|n IH]; intros s H.
  - reflexivity.
  - destruct s as [|c s]; cbn in *; [reflexivity|].
    apply andb_true_iff in H. destruct H as [Hc Hs].
    rewrite Hc, (IH s Hs). reflexivity.
Qed.

Lemma replace_newlines_clean (s : string) :
  PyStr.all_chars not_newline (PyStr.replace_newlines s) = true.
Proof.
  induction s as [|c s IH]; cbn; [reflexivity|].
  rewrite IH, andb_true_r. unfold not_newline.
  destruct (nat_of_ascii c =? 10)%nat eqn:Hc; [reflexivity|].
  rewrite Hc. reflexivity.
Qed.

(** X4.  The detail written to the error log is at most 200 characters
    long; a longer message is cut to its first 197 characters followed by
    three dots, 200 characters in all. *)
Theorem error_detail_length (error : exn) :
  (String.length (error_detail error) <= 200)%nat /\
  ((200 < String.length
            (PyStr.replace_newlines (PyStr.strip (exn_message error))))%nat ->
   String.length (error_detail error) = 200%nat /\
   error_detail error =
   PyStr.take 197 (PyStr.replace_newlines (PyStr.strip (exn_message error)))
   ++ "...").
Proof.
  unfold error_detail.
  set (detail := PyStr.replace_newlines (PyStr.strip (exn_message error))).
  destruct (200 <? String.length detail)%nat eqn:Hlen.
  - apply Nat.ltb_lt in Hlen.
    assert (Hcut : String.length (PyStr.take 197 detail ++ "...") = 200%nat).
    { rewrite length_append, length_take. cbn [String.length]. lia. }
    split; [lia|]. intros _. split; [exact Hcut|reflexivity].
  - apply Nat.ltb_ge in Hlen. split; [exact Hlen|]. intros H. lia.
Qed.

Lemma error_detail_length_witness :
  String.length
    (error_detail
       (failure
          ("0123456789012345678901234567890123456789012345678901234567890123456789"
           ++ "0123456789012345678901234567890123456789012345678901234567890123456789"
           ++ "0123456789012345678901234567890123456789012345678901234567890123456789")))
  = 200%nat.
Proof.
  apply error_detail_length. vm_compute. lia.
Defined.

(** X5.  The detail part of a line of the error log never contains a
    line feed: line 99 replaces each one by a space and the cut of line
    101 adds none.  (Carriage returns stay, and the video id part of the
    line is written as it is.) *)
Theorem error_detail_one_line (error : exn) :
  PyStr.all_chars not_newline (error_detail error) = true.
Proof.
  unfold error_detail.
  set (detail := PyStr.replace_newlines (PyStr.strip (exn_message error))).
  assert (H : PyStr.all_chars not_newline detail = true)
    by apply replace_newlines_clean.
  destruct (200 <? String.length detail)%nat.
  - rewrite all_chars_append, (all_chars_take _ _ _ H). reflexivity.
  - exact H.
Qed.

Local Open Scope list_scope.

(** ** The classifier along the chain of causes *)

Fixpoint is_timeout_error_chain (e : exn) :
  is_timeout_error e = existsb timeout_signature (cause_chain e).
Proof.
  destruct e as [cls m s cause].
  cbn [is_timeout_error cause_chain existsb].
  unfold timeout_signature at 1.
  destruct (is_timeout_instance cls); [reflexivity|].
  cbn [orb].
  destruct (PyStr.contains "timeout" _ || PyStr.contains "timed out" _);
    [reflexivity|].
  cbn [orb]. destruct cause as [c|]; [|reflexivity].
  rewrite <- (is_timeout_error_chain c).
  destruct (is_timeout_error c); reflexivity.
Qed.

Fixpoint is_rate_limit_error_chain (e : exn) :
  is_rate_limit_error e = existsb rate_limit_signature (cause_chain e).
Proof.
  destruct e as [cls m s cause].
  cbn [is_rate_limit_error cause_chain existsb].
  unfold rate_limit_signature at 1.
  destruct (PyStr.contains "429" _ || PyStr.contains "rate limit" _
            || PyStr.contains "too many requests" _);
    [reflexivity|].
  cbn [orb]. destruct cause as [c|]; [|reflexivity].
  rewrite <- (is_rate_limit_error_chain c).
  destruct (is_rate_limit_error c); reflexivity.
Qed.

(** X6.  The verdict looks at the whole chain of causes, however long: it
    is [Timeout] when any exception of the chain has a timeout signature,
    otherwise [RateLimited] when any has a rate-limit signature, otherwise
    [Other]. *)
Theorem classify_by_cause_chain (e : exn) :
  classify e =
  if existsb timeout_signature (cause_chain e) then Timeout
  else if existsb rate_limit_signature (cause_chain e) then RateLimited
  else Other.
Proof.
  unfold classify.
  rewrite is_timeout_error_chain, is_rate_limit_error_chain. reflexivity.
Qed.

(** A timeout anywhere below a failure wins over a rate-limit
    signature anywhere in the chain: such a failure is a [Timeout], so it
    is requeued without a line in the error log. *)
Theorem deep_timeout_wins (e c : exn) :
  In c (cause_chain e) ->
  timeout_signature c = true ->
  classify e = Timeout.
Proof.
  intros Hin Hc. rewrite classify_by_cause_chain.
  assert (H : existsb timeout_signature (cause_chain e) = true).
  { apply existsb_exists. exists c. split; assumption. }
  rewrite H. reflexivity.
Qed.

Lemma deep_timeout_wins_witness :
  classify
    (failure_from "HTTP Error 429: Too Many Requests"
       (failure_from "unable to download webpage"
          (Exn SocketTimeout None "" None)))
  = Timeout.
Proof.
  apply (deep_timeout_wins _ (Exn SocketTimeout None "" None)).
  - cbn. right. right. left. reflexivity.
  - reflexivity.
Defined.

(** ** Trimming *)

Local Open Scope string_scope.

Lemma rstrip_idempotent (s : string) :
  PyStr.rstrip (PyStr.rstrip s) = PyStr.rstrip s.
Proof.
  induction s as [|c s IH]; [reflexivity|].
  cbn [PyStr.rstrip].
  destruct (PyStr.rstrip s) as [|x r] eqn:Hr.
  - destruct (PyStr.is_space c) eqn:Hc; [reflexivity|].
    cbn [PyStr.rstrip]. rewrite Hc. reflexivity.
  - cbn [PyStr.rstrip]. cbn [PyStr.rstrip] in IH. rewrite IH. reflexivity.
Qed.

Lemma lstrip_head (s : string) :
  PyStr.lstrip s = "" \/
  exists c r, PyStr.lstrip s = String c r /\ PyStr.is_space c = false.
Proof.
  induction s as [|c s IH]; [left; reflexivity|].
  cbn [PyStr.lstrip]. destruct (PyStr.is_space c) eqn:Hc.
  - exact IH.
  - right. exists c, s. split; [reflexivity|exact Hc].
Qed.

Lemma rstrip_keeps_head (c : ascii) (r : string) :
  PyStr.is_space c = false ->
  exists r', PyStr.rstrip (String c r) = String c r'.
Proof.
  intros Hc. cbn [PyStr.rstrip].
  destruct (PyStr.rstrip r) as [|x r'].
  - rewrite Hc. exists "". reflexivity.
  - exists (String x r'). reflexivity.
Qed.

(** The head of a trimmed string is not white space. *)
Lemma strip_head (s : string) :
  PyStr.strip s = "" \/
  exists c r, PyStr.strip s = String c r /\ PyStr.is_space c = false.
Proof.
  unfold PyStr.strip.
  destruct (lstrip_head s) as [->|(c & r & -> & Hc)].
  - left. reflexivity.
  - right. destruct (rstrip_keeps_head c r Hc) as [r' Hr'].
    exists c, r'. split; [exact Hr'|exact Hc].
Qed.

(** Trimming what is already trimmed changes nothing. *)
Lemma strip_idempotent (s : string) :
  PyStr.strip (PyStr.strip s) = PyStr.strip s.
Proof.
  destruct (strip_head s) as [H|(c & r & H & Hc)].
  - rewrite H. reflexivity.
  - unfold PyStr.strip at 1. rewrite H. cbn [PyStr.lstrip]. rewrite Hc.
    rewrite <- H. unfold PyStr.strip. apply rstrip_idempotent.
Qed.

Local Open Scope list_scope.

(** ** The record of a fetch *)

Section FetchProperties.

Variable extract_info : string -> result pyval.

#[local] Abbreviation fetch := (download_and_collect_metadata extract_info).

(** X7.  Whatever [extract_info] returns, a fetch that returns at all
    returns either nothing or a dictionary with exactly the keys id,
    channel, duration, title and description, in which channel and title
    are never falsy other than the empty string and description is a
    trimmed string. *)
Theorem fetched_record_schema (url : string) (meta : pyval) :
  fetch url = Ok meta ->
  meta = PNone \/
  exists vid channel duration title description,
    meta = PDict [("id", vid); ("channel", channel); ("duration", duration);
                  ("title", title); ("description", PStr description)] /\
    (truthy channel = true \/ channel = PStr "") /\
    (truthy title = true \/ title = PStr "") /\
    PyStr.strip description = description.
Proof.
  unfold download_and_collect_metadata, bind.
  destruct (extract_info url) as [info|e]; [|discriminate].
  destruct (truthy info) eqn:Hi; cbn [negb].
  - destruct info as [ | | | | |d]; try discriminate.
    destruct (py_or (dict_get "description" d) (PStr "")) as [ | | |descr| | ];
      try discriminate.
    intros H. injection H as <-. right.
    do 5 eexists. split; [reflexivity|].
    split; [|split].
    + set (c := py_or (dict_get "channel" d) (dict_get "uploader" d)).
      unfold py_or.
      destruct (truthy c) eqn:Hc; [left; exact Hc|right; reflexivity].
    + unfold py_or.
      destruct (truthy (dict_get "title" d)) eqn:Ht;
        [left; exact Ht|right; reflexivity].
    + apply strip_idempotent.
  - intros H. injection H as <-. left. reflexivity.
Qed.

End FetchProperties.

(** ** Deliveries and runs *)

Section RunProperties.

Variable extract_info : string -> result pyval.

#[local] Abbreviation fetch := (download_and_collect_metadata extract_info).
#[local] Abbreviation handle := (on_message extract_info).
#[local] Abbreviation consume := (start_consuming extract_info).

(** The calls and log lines that one delivery adds. *)
Lemma on_message_extends (tag : nat) (body : string) (w : world) :
  let w' := snd (handle tag body w) in
  exists evs lines,
    calls w' = calls w ++ evs /\
    error_log w' = error_log w ++ lines /\
    (List.length lines <= 1)%nat /\
    ((consuming w' = consuming w /\
      (evs = [BasicAck tag] \/
       evs = [BasicAck tag; Sleep DELAY_BETWEEN_DOWNLOADS_SEC]))
     \/ (consuming w' = false /\
         evs = [BasicNack tag true; StopConsuming])).
Proof.
  intros w'. subst w'.
  destruct (PyStr.nonempty (PyStr.strip body)) eqn:Hu.
  - pose proof (fetch_and_store_frame extract_info (PyStr.strip body) w)
      as Hframe.
    destruct (fetch_and_store extract_info (PyStr.strip body) w)
      as [[[]|e] w1] eqn:Hf; cbn [fst snd] in Hframe;
      destruct Hframe as (_ & Hlog & Hcalls & Hcons & _).
    + rewrite (on_message_completes _ _ _ _ _ Hu Hf). cbn.
      exists [BasicAck tag; Sleep DELAY_BETWEEN_DOWNLOADS_SEC], [].
      rewrite Hcalls, Hlog, <- app_assoc, app_nil_r. cbn.
      repeat split; auto.
    + rewrite (on_message_fails _ _ _ _ _ _ Hu Hf).
      destruct (classify e) eqn:Hc.
      * rewrite (on_exception_timeout _ _ _ _ Hc). cbn.
        exists [BasicNack tag true; StopConsuming], [].
        rewrite Hcalls, Hlog, app_nil_r. cbn. repeat split; auto.
      * rewrite (on_exception_rate_limited _ _ _ _ Hc). cbn.
        eexists [BasicNack tag true; StopConsuming], [_].
        rewrite Hcalls, Hlog. cbn. repeat split; auto.
      * rewrite (on_exception_other _ _ _ _ Hc). cbn.
        eexists [BasicAck tag; Sleep DELAY_BETWEEN_DOWNLOADS_SEC], [_].
        rewrite Hcalls, Hlog. cbn. repeat split; auto.
  - rewrite (on_message_empty _ _ _ _ Hu). cbn.
    exists [BasicAck tag], []. rewrite app_nil_r. cbn. repeat split; auto.
Qed.

(** From the decoded text on, a delivery is resolved exactly once and
    under its own tag: among the calls it causes there is one ack or one
    nack with requeue, never both and never two. *)
Theorem delivery_resolved_exactly_once
        (tag : nat) (body : string) (w : world) :
  let w' := snd (handle tag body w) in
  filter is_resolution (new_calls w w') = [BasicAck tag] \/
  filter is_resolution (new_calls w w') = [BasicNack tag true].
Proof.
  intros w'. subst w'.
  destruct (on_message_extends tag body w)
    as (evs & lines & Hcalls & _ & _ & H).
  rewrite (new_calls_app _ _ _ Hcalls).
  destruct H as [(_ & [->| ->])|(_ & ->)]; cbn; auto.
Qed.

Lemma resolved_tags_app (a b : list event) :
  resolved_tags (a ++ b) = resolved_tags a ++ resolved_tags b.
Proof.
  induction a as [|ev a IH]; [reflexivity|].
  cbn [app resolved_tags]. destruct (resolved_tag ev); rewrite IH; reflexivity.
Qed.

(** What a whole run adds to the calls and to the error log. *)
Lemma start_consuming_trace (deliveries : list (nat * string)) :
  forall w : world,
    consuming w = true ->
    let w' := snd (consume deliveries w) in
    exists evs lines k,
      calls w' = calls w ++ evs /\
      error_log w' = error_log w ++ lines /\
      (List.length lines <= k)%nat /\
      (k <= List.length deliveries)%nat /\
      resolved_tags evs = firstn k (map fst deliveries) /\
      ((consuming w' = true /\ k = List.length deliveries /\
        existsb is_halt_call evs = false)
       \/ (consuming w' = false /\
           exists evs0 tag,
             evs = evs0 ++ [BasicNack tag true; StopConsuming] /\
             existsb is_halt_call evs0 = false /\
             In tag (map fst deliveries))).
Proof.
  induction deliveries as [|[tag body] rest IH]; intros w Hc.
  - cbn. exists [], [], 0%nat. rewrite !app_nil_r. cbn.
    repeat split; auto.
  - cbv zeta. rewrite (start_consuming_step _ _ _ _ _ Hc).
    destruct (on_message_extends tag body w)
      as (evs1 & lines1 & Hcalls1 & Hlog1 & Hlen1 & H1).
    set (w1 := snd (handle tag body w)) in *.
    destruct H1 as [(Hc1 & Hevs1)|(Hc1 & ->)].
    + assert (Hc1' : consuming w1 = true) by congruence.
      destruct (IH w1 Hc1')
        as (evs2 & lines2 & k & Hcalls & Hlog & Hlen & Hk & Htags & H).
      exists (evs1 ++ evs2), (lines1 ++ lines2), (S k).
      assert (Hr1 : resolved_tags evs1 = [tag] /\
                    existsb is_halt_call evs1 = false).
      { destruct Hevs1 as [->| ->]; split; reflexivity. }
      destruct Hr1 as [Hr1 Hh1].
      rewrite Hcalls, Hcalls1, Hlog, Hlog1, <- !app_assoc.
      rewrite length_app, resolved_tags_app, Hr1, Htags.
      cbn [List.length map fst firstn app].
      split; [reflexivity|]. split; [reflexivity|].
      split; [lia|]. split; [lia|]. split; [reflexivity|].
      destruct H as [(Hcw & -> & Hnh)|(Hcw & evs0 & t & -> & Hnh & Hin)].
      * left. split; [exact Hcw|]. split; [reflexivity|].
        rewrite existsb_app, Hh1, Hnh. reflexivity.
      * right. split; [exact Hcw|].
        exists (evs1 ++ evs0), t. rewrite <- app_assoc.
        split; [reflexivity|]. split.
        -- rewrite existsb_app, Hh1, Hnh. reflexivity.
        -- right. exact Hin.
    + rewrite (start_consuming_stopped _ _ _ Hc1). cbn [snd].
      exists [BasicNack tag true; StopConsuming], lines1, 1%nat.
      cbn [List.length map fst firstn resolved_tags resolved_tag].
      split; [exact Hcalls1|]. split; [exact Hlog1|].
      split; [exact Hlen1|]. split; [lia|]. split; [reflexivity|].
      right. split; [exact Hc1|].
      exists [], tag. cbn. auto.
Qed.



(** X11.  When a run stops the loop, the nack of one of its deliveries
    followed by [stop_consuming] are the last two calls of the run, and the
    only nack and the only stop in it. *)
Theorem halt_ends_the_run (deliveries : list (nat * string)) (w : world) :
  consuming w = true ->
  let w' := snd (consume deliveries w) in
  consuming w' = false ->
  exists evs0 tag,
    new_calls w w' = evs0 ++ [BasicNack tag true; StopConsuming] /\
    existsb is_halt_call evs0 = false /\
    In tag (map fst deliveries).
Proof.
  intros Hc w' Hstop. subst w'.
  destruct (start_consuming_trace deliveries w Hc)
    as (evs & lines & k & Hcalls & _ & _ & _ & _ & H).
  rewrite (new_calls_app _ _ _ Hcalls).
  destruct H as [(Hw & _)|(_ & H)]; [congruence|exact H].
Qed.

(** One delivery either leaves the metadata file alone or rewrites it as the
    list it loaded followed by the record fetched. *)
Lemma on_message_store_step (tag : nat) (body : string) (w : world) :
  let w' := snd (handle tag body w) in
  metadata_json w' = metadata_json w \/
  exists l meta,
    load w = Ok (PList l) /\
    fetch (PyStr.strip body) = Ok meta /\
    truthy meta = true /\
    store_writable w = true /\
    metadata_json w' = Document (PList (l ++ [meta])).
Proof.
  intros w'. subst w'.
  destruct (PyStr.nonempty (PyStr.strip body)) eqn:Hu.
  - destruct (on_message_cases extract_info tag body w Hu) as (Hstore & _).
    rewrite Hstore. clear Hstore.
    unfold fetch_and_store. unfold_worker.
    destruct (fetch (PyStr.strip body)) as [meta|e] eqn:Hf; [|left; reflexivity].
    destruct (truthy meta) eqn:Hm; [|left; reflexivity].
    destruct (load_metadata_from (metadata_json w)) as [records|e] eqn:Hl;
      [|left; reflexivity].
    destruct records as [ | | | |l| ]; cbn [list_append];
      try (left; reflexivity).
    destruct (store_writable w) eqn:Hw; [|left; reflexivity].
    right. exists l, meta.
    repeat split; assumption.
  - rewrite (on_message_empty _ _ _ _ Hu). left. reflexivity.
Qed.

(** With a save that either completes or leaves the file untouched, a
    store that loads as a list loads after a run as the same list followed
    by records fetched during the run, at most one per delivery. *)
Lemma store_grows_by_fetched_records (deliveries : list (nat * string)) :
  forall (w : world) (l : list pyval),
    load w = Ok (PList l) ->
    let w' := snd (consume deliveries w) in
    exists added,
      load w' = Ok (PList (l ++ added)) /\
      (List.length added <= List.length deliveries)%nat /\
      Forall (fun meta =>
                exists d, In d deliveries /\ fetched extract_info d meta)
             added.
Proof.
  induction deliveries as [|[tag body] rest IH]; intros w l Hl.
  - cbn. exists []. rewrite app_nil_r. auto.
  - cbv zeta. destruct (consuming w) eqn:Hc.
    + rewrite (start_consuming_step _ _ _ _ _ Hc).
      destruct (on_message_store_step tag body w)
        as [Hsame|(l0 & meta & Hl0 & Hf & Hm & Hw & Hnew)].
      * assert (Hl1 : load (snd (handle tag body w)) = Ok (PList l)).
        { unfold load in *. rewrite Hsame. exact Hl. }
        destruct (IH _ l Hl1) as (added & Hload & Hlen & Hall).
        exists added. split; [exact Hload|]. split; [cbn; lia|].
        eapply Forall_impl; [|exact Hall].
        intros m (d & Hd & Hfd). exists d. split; [right; exact Hd|exact Hfd].
      * assert (l0 = l) by congruence. subst l0.
        assert (Hl1 : load (snd (handle tag body w))
                      = Ok (PList (l ++ [meta]))).
        { unfold load. rewrite Hnew. reflexivity. }
        destruct (IH _ (l ++ [meta]) Hl1) as (added & Hload & Hlen & Hall).
        exists (meta :: added). rewrite <- app_assoc in Hload.
        split; [exact Hload|]. split; [cbn; lia|].
        constructor.
        -- exists (tag, body). split; [left; reflexivity|exact Hf].
        -- eapply Forall_impl; [|exact Hall].
           intros m (d & Hd & Hfd). exists d.
           split; [right; exact Hd|exact Hfd].
    + rewrite (start_consuming_stopped _ _ _ Hc). cbn [snd].
      exists []. rewrite app_nil_r. split; [exact Hl|]. split; [cbn; lia|].
      constructor.
Qed.




(** X13.  A metadata file that is missing, cannot be read, is blank or is
    not valid JSON is replaced, at the first fetch that returns a record,
    by a document holding that record alone: what the file held before is
    not kept. *)
Theorem unusable_store_is_replaced
        (tag : nat) (body : string) (w : world) (meta : pyval) :
  metadata_json w = Absent \/ metadata_json w = Unreadable \/
  metadata_json w = Blank \/ metadata_json w = Malformed ->
  store_writable w = true ->
  PyStr.nonempty (PyStr.strip body) = true ->
  fetch (PyStr.strip body) = Ok meta ->
  truthy meta = true ->
  metadata_json (snd (handle tag body w)) = Document (PList [meta]).
Proof.
  intros Hfile Hw Hu Hf Hm.
  assert (Hl : load w = Ok (PList [])).
  { unfold load. apply load_metadata_tolerates. exact Hfile. }
  destruct (on_message_store_step tag body w)
    as [Hsame|(l0 & meta0 & Hl0 & Hf0 & _ & _ & Hnew)].
  - destruct (on_message_stores_record extract_info tag body w meta []
                Hu Hf Hm Hl Hw) as (Hload & _).
    unfold load in Hload. rewrite Hsame in Hload.
    unfold load in Hl. rewrite Hl in Hload. discriminate.
  - assert (l0 = []) by congruence. assert (meta0 = meta) by congruence.
    subst. exact Hnew.
Qed.

End RunProperties.

(** ** More on the producer *)

Lemma producer_sent (links : list pyval) :
  Producer.sent (Producer.main links) = Producer.well_formed_entries links.
Proof.
  destruct links as [|url rest]; [reflexivity|].
  unfold Producer.main. cbn [truthy negb].
  rewrite publish_loop_filters. reflexivity.
Qed.

Lemma well_formed_entries_app (l1 l2 : list pyval) :
  Producer.well_formed_entries (l1 ++ l2) =
  Producer.well_formed_entries l1 ++ Producer.well_formed_entries l2.
Proof.
  induction l1 as [|v l1 IH]; [reflexivity|].
  cbn [app Producer.well_formed_entries].
  destruct (Producer.well_formed v); rewrite IH; reflexivity.
Qed.

Lemma well_formed_entries_nonempty (links : list pyval) :
  Forall (fun s => PyStr.nonempty s = true)
         (Producer.well_formed_entries links).
Proof.
  induction links as [|v links IH]; [constructor|].
  cbn [Producer.well_formed_entries].
  destruct v as [ | | |s| | ]; cbn [Producer.well_formed]; try exact IH.
  destruct (PyStr.nonempty s) eqn:Hs; [constructor; assumption|exact IH].
Qed.

Lemma well_formed_entries_of_strings (bodies : list string) :
  Forall (fun s => PyStr.nonempty s = true) bodies ->
  Producer.well_formed_entries (map PStr bodies) = bodies.
Proof.
  induction 1 as [|s bodies Hs _ IH]; [reflexivity|].
  cbn [map Producer.well_formed_entries Producer.well_formed].
  rewrite Hs, IH. reflexivity.
Qed.

(** X14.  Publishing is idempotent on what it lets through: running the
    producer on the bodies it published publishes exactly the same bodies
    again. *)
Theorem publish_is_idempotent (links : list pyval) :
  Producer.sent
    (Producer.main (map PStr (Producer.sent (Producer.main links))))
  = Producer.sent (Producer.main links).
Proof.
  rewrite !producer_sent.
  apply well_formed_entries_of_strings, well_formed_entries_nonempty.
Qed.

(** X15.  The producer handles the links one by one and in order: the
    bodies published for a list are those published for its first part
    followed by those published for the rest, so a run that stops midway
    has published a prefix. *)
Theorem publish_distributes_over_append (links1 links2 : list pyval) :
  Producer.sent (Producer.main (links1 ++ links2)) =
  Producer.sent (Producer.main links1) ++ Producer.sent (Producer.main links2).
Proof.
  rewrite !producer_sent. apply well_formed_entries_app.
Qed.

(** X16.  A link made of white space only passes the filter of the
    producer, and the worker then acks it without fetching anything: one
    ack, no sleep, no line in the error log, the store untouched. *)
Theorem blank_link_is_published_then_dropped
        (link : string) (extract_info : string -> result pyval)
        (tag : nat) (w : world) :
  PyStr.nonempty link = true ->
  PyStr.strip link = ""%string ->
  Producer.sent (Producer.main [PStr link]) = [link] /\
  on_message extract_info tag link w = (Ok tt, emit (BasicAck tag) w).
Proof.
  intros Hn Hs. split.
  - rewrite producer_sent. cbn. rewrite Hn. reflexivity.
  - apply on_message_empty. rewrite Hs. reflexivity.
Qed.

(** ** The scraper *)

(** X17.  After normalisation a YouTube channel url always names the
    [/videos] page of the channel. *)
Theorem normalized_youtube_url_lists_videos (url : string) :
  PyStr.contains "youtube.com" (Scraper.normalize_channel_url url) = true ->
  PyStr.contains "/videos" (Scraper.normalize_channel_url url) = true.
Proof.
  unfold Scraper.normalize_channel_url.
  set (t := PyStr.rstrip_char "/" (PyStr.strip url)).
  destruct (PyStr.contains "youtube.com" t) eqn:Hy;
    destruct (PyStr.contains "/videos" t) eqn:Hv; cbn [negb orb]; intros H.
  - exact Hv.
  - apply contains_app_r. reflexivity.
  - congruence.
  - congruence.
Qed.

(** X18.  Every url that [iter_channel_urls] yields is a trimmed line of
    the file, is not empty and is not a comment. *)
Theorem channel_urls_are_clean (lines : list string) :
  Forall (fun u => PyStr.nonempty u = true /\
                   PyStr.startswith "#" u = false /\
                   PyStr.strip u = u /\
                   In u (map PyStr.strip lines))
         (Scraper.channel_lines lines).
Proof.
  induction lines as [|line rest IH]; [constructor|].
  cbn [Scraper.channel_lines map].
  assert (Hrest : Forall (fun u => PyStr.nonempty u = true /\
                            PyStr.startswith "#" u = false /\
                            PyStr.strip u = u /\
                            In u (PyStr.strip line :: map PyStr.strip rest))
                         (Scraper.channel_lines rest)).
  { eapply Forall_impl; [|exact IH].
    intros u (H1 & H2 & H3 & H4). repeat split; try assumption.
    right. exact H4. }
  destruct (PyStr.nonempty (PyStr.strip line)) eqn:Hn; cbn [negb orb];
    [|exact Hrest].
  destruct (PyStr.startswith "#" (PyStr.strip line)) eqn:Hc; [exact Hrest|].
  constructor; [|exact Hrest].
  repeat split; try assumption.
  - apply strip_idempotent.
  - left. reflexivity.
Qed.

Section ScrapeProperties.

Variable repr : pyval -> string.

Lemma scrape_entry_shape (channel_name entry v : pyval) :
  Scraper.scrape_entry repr channel_name entry = Ok (Some v) ->
  video_shape v.
Proof.
  unfold Scraper.scrape_entry.
  destruct entry as [ | | | | |e]; try discriminate.
  match goal with
  | |- (if negb (truthy ?u) then _ else _) = _ -> _ =>
      destruct (truthy u) eqn:Hu; cbn [negb]; [|discriminate]
  end.
  intros H. injection H as <-. do 3 eexists. split; [reflexivity|exact Hu].
Qed.

Lemma scrape_entries_shape (channel_name : pyval) (entries : list pyval) :
  forall videos result : list pyval,
    Scraper.scrape_entries repr channel_name entries videos = Ok result ->
    Forall video_shape videos ->
    Forall video_shape result /\
    (List.length result <= List.length videos + List.length entries)%nat.
Proof.
  induction entries as [|entry rest IH]; intros videos result H Hall.
  - cbn in H. injection H as <-. split; [exact Hall|lia].
  - cbn [Scraper.scrape_entries] in H. unfold bind in H.
    destruct (Scraper.scrape_entry repr channel_name entry) as [[v|]|e] eqn:He;
      [ | |discriminate].
    + destruct (IH _ _ H) as [Hr Hlen].
      { apply Forall_app. split; [exact Hall|].
        constructor; [|constructor].
        exact (scrape_entry_shape _ _ _ He). }
      split; [exact Hr|]. rewrite length_app in Hlen. cbn in *. lia.
    + destruct (IH _ _ H Hall) as [Hr Hlen].
      split; [exact Hr|]. cbn. lia.
Qed.

(** X19.  Every video that [scrape_channel_videos] returns is a dictionary
    with exactly the keys url, duration and channel, and its url is never
    missing or empty; there are at most as many videos as entries. *)
Theorem scraped_videos_have_urls (i : list (string * pyval))
        (videos : list pyval) :
  Scraper.scrape_channel_videos repr (PDict i) = Ok videos ->
  Forall (fun v =>
            exists url duration channel,
              v = PDict [("url", url); ("duration", duration);
                         ("channel", channel)] /\
              truthy url = true) videos /\
  exists entries,
    py_or (dict_get "entries" i) (PList []) = PList entries /\
    (List.length videos <= List.length entries)%nat.
Proof.
  unfold Scraper.scrape_channel_videos.
  destruct (py_or (dict_get "entries" i) (PList [])) as [ | | | |l| ];
    try discriminate.
  intros H.
  destruct (scrape_entries_shape _ _ _ _ H (Forall_nil _)) as [Hall Hlen].
  split; [exact Hall|]. exists l. split; [reflexivity|exact Hlen].
Qed.

(** X20.  For an entry that carries a video id and no url of its own, the
    url that the scraper writes is the watch url of that id, and the worker
    reads the same id back from it. *)
Theorem scraped_id_survives_the_queue
        (channel_name : pyval) (e : list (string * pyval))
        (video_id : string) :
  truthy (py_or (dict_get "url" e) (dict_get "webpage_url" e)) = false ->
  dict_get "id" e = PStr video_id ->
  PyStr.nonempty video_id = true ->
  PyStr.contains "&" video_id = false ->
  exists v url,
    Scraper.scrape_entry repr channel_name (PDict e) = Ok (Some v) /\
    v = PDict [("url", PStr url); ("duration", dict_get "duration" e);
               ("channel", py_or (dict_get "channel" e) channel_name)] /\
    url = watch_url video_id /\
    video_id_from_url url = Some (PyStr.strip video_id).
Proof.
  intros Hno Hid Hne Hamp.
  do 2 eexists. split; [|split; [reflexivity|split; [reflexivity|]]].
  - set (u := py_or (dict_get "url" e) (dict_get "webpage_url" e)) in *.
    assert (Hurl :
              py_or u (if truthy (PStr video_id)
                       then PStr (watch_url
                                    (Scraper.format_value repr (PStr video_id)))
                       else PNone)
              = PStr (watch_url video_id)).
    { unfold py_or. rewrite Hno. cbn [truthy]. rewrite Hne. reflexivity. }
    unfold Scraper.scrape_entry. fold u. rewrite Hid, Hurl. reflexivity.
  - pose proof (video_id_from_watch_url video_id "" Hamp (or_introl eq_refl))
      as H.
    rewrite append_nil_r in H. exact H.
Qed.

Variable extract_info : string -> result pyval.

Lemma scrape_all_shape (urls : list string) :
  forall all_videos : list pyval,
    Forall video_shape all_videos ->
    Forall video_shape (Scraper.scrape_all repr extract_info urls all_videos).
Proof.
  induction urls as [|url rest IH]; intros acc Hacc; [exact Hacc|].
  cbn [Scraper.scrape_all]. unfold bind.
  destruct (extract_info (Scraper.normalize_channel_url url)) as [info|e];
    [|apply IH; exact Hacc].
  destruct (Scraper.scrape_channel_videos repr info) as [vs|e] eqn:Hs;
    [|apply IH; exact Hacc].
  apply IH. apply Forall_app. split; [exact Hacc|].
  destruct info as [ | | | | |i]; try discriminate.
  unfold Scraper.scrape_channel_videos in Hs.
  destruct (py_or (dict_get "entries" i) (PList [])) as [ | | | |l| ];
    try discriminate.
  exact (proj1 (scrape_entries_shape _ _ _ _ Hs (Forall_nil _))).
Qed.

(** X21.  What the scraper writes is a list of dictionaries, not of
    strings: given that list as its links, the producer publishes
    nothing. *)
Theorem producer_skips_scraped_entries (urls : list string) :
  Producer.sent
    (Producer.main (Scraper.scrape_all repr extract_info urls []))
  = [].
Proof.
  rewrite producer_sent.
  pose proof (scrape_all_shape urls [] (Forall_nil _)) as H.
  induction H as [|v vs (url & duration & channel & -> & _) _ IH];
    [reflexivity|exact IH].
Qed.

End ScrapeProperties.

(** ** The user name of a channel *)

Local Open Scope string_scope.

Lemma sub_non_alnum_chars (s : string) :
  PyStr.all_chars Uploader.username_char (Uploader.sub_non_alnum s) = true.
Proof.
  induction s as [|c s IH]; [reflexivity|].
  cbn [Uploader.sub_non_alnum].
  destruct (Uploader.is_lower_alnum c) eqn:Hc.
  - cbn [PyStr.all_chars]. unfold Uploader.username_char at 1.
    rewrite Hc, IH. reflexivity.
  - destruct s as [|c' s']; [reflexivity|].
    destruct (Uploader.is_lower_alnum c'); [|exact IH].
    cbn [PyStr.all_chars]. rewrite IH. reflexivity.
Qed.

Lemma all_chars_lstrip_char (f : ascii -> bool) (c : ascii) (s : string) :
  PyStr.all_chars f s = true ->
  PyStr.all_chars f (PyStr.lstrip_char c s) = true.
Proof.
  induction s as [|x s IH]; intros H; [reflexivity|].
  cbn [PyStr.lstrip_char]. destruct (Ascii.eqb x c); [|exact H].
  cbn in H. apply andb_true_iff in H. apply IH, H.
Qed.

Lemma all_chars_rstrip_char (f : ascii -> bool) (c : ascii) (s : string) :
  PyStr.all_chars f s = true ->
  PyStr.all_chars f (PyStr.rstrip_char c s) = true.
Proof.
  induction s as [|x s IH]; intros H; [reflexivity|].
  cbn in H. apply andb_true_iff in H. destruct H as [Hx Hs].
  cbn [PyStr.rstrip_char]. specialize (IH Hs).
  destruct (PyStr.rstrip_char c s) as [|y r].
  - destruct (Ascii.eqb x c); [reflexivity|]. cbn. rewrite Hx. reflexivity.
  - cbn [PyStr.all_chars]. rewrite Hx. exact IH.
Qed.

Lemma lstrip_char_head (c : ascii) (s : string) :
  PyStr.lstrip_char c s = "" \/
  exists x r, PyStr.lstrip_char c s = String x r /\ Ascii.eqb x c = false.
Proof.
  induction s as [|x s IH]; [left; reflexivity|].
  cbn [PyStr.lstrip_char]. destruct (Ascii.eqb x c) eqn:Hx.
  - exact IH.
  - right. exists x, s. split; [reflexivity|exact Hx].
Qed.

Lemma strip_char_head (c : ascii) (s : string) :
  PyStr.strip_char c s = "" \/
  exists x r, PyStr.strip_char c s = String x r /\ Ascii.eqb x c = false.
Proof.
  unfold PyStr.strip_char.
  destruct (lstrip_char_head c s) as [->|(x & r & -> & Hx)].
  - left. reflexivity.
  - right. cbn [PyStr.rstrip_char].
    destruct (PyStr.rstrip_char c r) as [|y r'].
    + rewrite Hx. exists x, "". split; [reflexivity|exact Hx].
    + exists x, (String y r'). split; [reflexivity|exact Hx].
Qed.

(** X22.  Whatever the channel name, the user name made from it is not
    empty, has at most 64 characters, all of them lower-case letters,
    digits or underscores, and does not begin with an underscore. *)
Theorem channel_to_username_valid (channel : string) :
  let u := Uploader.channel_to_username channel in
  PyStr.nonempty u = true /\
  (String.length u <= 64)%nat /\
  PyStr.all_chars Uploader.username_char u = true /\
  PyStr.startswith "_" u = false.
Proof.
  unfold Uploader.channel_to_username.
  destruct (PyStr.nonempty channel); cbn [negb].
  - set (s1 := Uploader.sub_non_alnum (PyStr.lower (PyStr.strip channel))).
    assert (H1 : PyStr.all_chars Uploader.username_char
                   (PyStr.strip_char "_" s1) = true).
    { unfold PyStr.strip_char.
      apply all_chars_rstrip_char, all_chars_lstrip_char.
      apply sub_non_alnum_chars. }
    destruct (strip_char_head "_" s1) as [->|(x & r & Hs & Hx)].
    + cbn. repeat split; (reflexivity || lia).
    + rewrite Hs in *. cbn [PyStr.nonempty].
      cbv zeta. split; [reflexivity|]. split; [|split].
      * rewrite length_take. lia.
      * apply all_chars_take. exact H1.
      * cbn [PyStr.take PyStr.startswith prefix].
        destruct (ascii_dec "_" x) as [<-|_]; [discriminate|reflexivity].
  - cbn. repeat split; (reflexivity || lia).
Qed.

Local Open Scope list_scope.

(** ** The index of the uploader *)

Lemma key_eqb_str (s : string) (k : pyval) :
  Uploader.key_eqb (PStr s) k = true <-> k = PStr s.
Proof.
  destruct k as [ | | |t| | ]; cbn; split; intros H; try discriminate.
  - apply String.eqb_eq in H. congruence.
  - injection H as ->. apply String.eqb_refl.
Qed.

Lemma key_eqb_str_r (s : string) (k : pyval) :
  Uploader.key_eqb k (PStr s) = true <-> k = PStr s.
Proof.
  destruct k as [ | | |t| | ]; cbn; split; intros H; try discriminate.
  - apply String.eqb_eq in H. congruence.
  - injection H as ->. apply String.eqb_refl.
Qed.

(** Looking a string up after an assignment. *)
Lemma dict_lookup_set (s : string) (k v : pyval) (d : Uploader.pydict) :
  Uploader.dict_lookup (PStr s) (Uploader.dict_set k v d) =
  if Uploader.key_eqb (PStr s) k then Some v
  else Uploader.dict_lookup (PStr s) d.
Proof.
  induction d as [|[k0 v0] d IH].
  - cbn. reflexivity.
  - cbn [Uploader.dict_set Uploader.dict_lookup].
    destruct (Uploader.key_eqb k k0) eqn:Hk.
    + cbn [Uploader.dict_lookup].
      destruct (Uploader.key_eqb (PStr s) k0) eqn:H0.
      * apply key_eqb_str in H0. subst k0.
        apply key_eqb_str_r in Hk. subst k.
        rewrite (proj2 (key_eqb_str s (PStr s)) eq_refl). reflexivity.
      * destruct (Uploader.key_eqb (PStr s) k) eqn:H1; [|reflexivity].
        apply key_eqb_str in H1. subst k.
        rewrite Hk in H0. discriminate.
    + cbn [Uploader.dict_lookup]. rewrite IH.
      destruct (Uploader.key_eqb (PStr s) k0) eqn:H0; [|reflexivity].
      destruct (Uploader.key_eqb (PStr s) k) eqn:H1; [|reflexivity].
      apply key_eqb_str in H0, H1. subst.
      rewrite (proj2 (key_eqb_str s (PStr s)) eq_refl) in Hk. discriminate.
Qed.

Lemma index_records_lookup (vid_id : string) (records : list pyval) :
  forall d m : Uploader.pydict,
    Uploader.index_records records d = Ok m ->
    Uploader.dict_lookup (PStr vid_id) m =
    match Uploader.last_record_with_id vid_id records with
    | Some r => Some r
    | None => Uploader.dict_lookup (PStr vid_id) d
    end.
Proof.
  induction records as [|r rest IH]; intros d m H.
  - cbn in H. injection H as <-. reflexivity.
  - cbn [Uploader.index_records] in H.
    destruct r as [ | | | | |fields]; try discriminate.
    cbn [Uploader.last_record_with_id].
    destruct (truthy (dict_get "id" fields)) eqn:Ht.
    + destruct (Uploader.hashable (dict_get "id" fields)); [|discriminate].
      rewrite (IH _ _ H).
      destruct (Uploader.last_record_with_id vid_id rest); [reflexivity|].
      rewrite dict_lookup_set.
      destruct (dict_get "id" fields) as [ | | |s| | ]; cbn in *;
        try reflexivity.
      rewrite Ht, andb_true_r, (String.eqb_sym vid_id s).
      destruct (String.eqb s vid_id); reflexivity.
    + rewrite (IH _ _ H).
      destruct (Uploader.last_record_with_id vid_id rest); [reflexivity|].
      destruct (dict_get "id" fields) as [ | | |s| | ]; cbn in *;
        try reflexivity.
      rewrite Ht, andb_false_r. reflexivity.
Qed.

Lemma load_metadata_lookup
      (records : list pyval) (m : Uploader.pydict) (vid_id : string) :
  Uploader.load_metadata records = Ok m ->
  Uploader.dict_lookup (PStr vid_id) m =
  Uploader.last_record_with_id vid_id records.
Proof.
  intros H. unfold Uploader.load_metadata in H.
  rewrite (index_records_lookup vid_id records [] m H).
  destruct (Uploader.last_record_with_id vid_id records); reflexivity.
Qed.

(** X23.  In the index that the uploader builds, a video id leads to the
    last record of the file that carries it: records with a missing or
    empty id are left out, and of several records with one id the latest
    wins. *)
Theorem load_metadata_last_record_wins
        (records : list pyval) (m : Uploader.pydict) (vid_id : string) :
  Uploader.load_metadata records = Ok m ->
  Uploader.dict_lookup (PStr vid_id) m =
  Uploader.last_record_with_id vid_id records.
Proof.
  intros H. unfold Uploader.load_metadata in H.
  rewrite (index_records_lookup vid_id records [] m H).
  destruct (Uploader.last_record_with_id vid_id records); reflexivity.
Qed.

Lemma last_record_with_id_some (vid_id : string) (records : list pyval)
      (r : pyval) :
  Uploader.last_record_with_id vid_id records = Some r ->
  In r records /\
  exists fields, r = PDict fields /\ dict_get "id" fields = PStr vid_id.
Proof.
  induction records as [|r0 rest IH]; [discriminate|].
  cbn [Uploader.last_record_with_id].
  destruct (Uploader.last_record_with_id vid_id rest) as [r'|].
  - intros H. injection H as <-. destruct (IH eq_refl) as [Hin Hf].
    split; [right; exact Hin|exact Hf].
  - destruct r0 as [ | | | | |fields]; try discriminate.
    destruct (dict_get "id" fields) as [ | | |s| | ] eqn:Hid; try discriminate.
    destruct (String.eqb s vid_id) eqn:Hs; cbn [andb]; [|discriminate].
    destruct (PyStr.nonempty s); [|discriminate].
    intros H. injection H as <-. apply String.eqb_eq in Hs. subst s.
    split; [left; reflexivity|]. exists fields. split; [reflexivity|exact Hid].
Qed.

Lemma partition_files_spec (metadata : Uploader.pydict) (stems : list string) :
  forall (missing : list string) (to_upload : list (string * pyval)),
    let r := Uploader.partition_files stems metadata missing to_upload in
    (List.length (fst r) + List.length (snd r)
     = List.length missing + List.length to_upload + List.length stems)%nat /\
    forall P : string * pyval -> Prop,
      Forall P to_upload ->
      (forall stem meta,
          Uploader.dict_lookup (PStr stem) metadata = Some meta ->
          P (stem, meta)) ->
      Forall P (snd r).
Proof.
  induction stems as [|stem rest IH]; intros missing to_upload.
  - cbn. split; [lia|]. intros P H _. exact H.
  - cbn [Uploader.partition_files].
    destruct (Uploader.dict_lookup (PStr stem) metadata) as [meta|] eqn:Hl.
    + destruct (IH missing (to_upload ++ [(stem, meta)])) as [Hlen Hall].
      split.
      * cbv zeta in *. rewrite Hlen, length_app. cbn. lia.
      * intros P HP Hlook. apply Hall; [|exact Hlook].
        apply Forall_app. split; [exact HP|].
        constructor; [exact (Hlook _ _ Hl)|constructor].
    + destruct (IH (missing ++ [stem]) to_upload) as [Hlen Hall].
      split.
      * cbv zeta in *. rewrite Hlen, length_app. cbn. lia.
      * exact Hall.
Qed.

Lemma partition_files_lists (metadata : Uploader.pydict)
      (stems : list string) :
  forall (missing : list string) (to_upload : list (string * pyval)),
    Uploader.partition_files stems metadata missing to_upload =
    (missing ++
     filter (fun s =>
               match Uploader.dict_lookup (PStr s) metadata with
               | Some _ => false
               | None => true
               end) stems,
     to_upload ++
     flat_map (fun s =>
                 match Uploader.dict_lookup (PStr s) metadata with
                 | Some meta => [(s, meta)]
                 | None => []
                 end) stems).
Proof.
  induction stems as [|stem rest IH]; intros missing to_upload.
  - cbn. rewrite !app_nil_r. reflexivity.
  - cbn [Uploader.partition_files filter flat_map].
    destruct (Uploader.dict_lookup (PStr stem) metadata) as [meta|].
    + rewrite IH, <- app_assoc. reflexivity.
    + rewrite IH, <- app_assoc. reflexivity.
Qed.

(** X24.  The uploader sorts the mp4 files of the folder into two lists
    that keep their order: [missing] is exactly the files for which the
    metadata file has no record with their stem as id, [to_upload] is
    exactly the other files, so every file is in one list and in one only;
    and each file to upload is paired with the last record of the metadata
    file whose id is its stem. *)
Theorem files_are_paired_with_their_records
        (records : list pyval) (metadata : Uploader.pydict)
        (stems : list string) :
  Uploader.load_metadata records = Ok metadata ->
  let r := Uploader.partition_files stems metadata [] [] in
  fst r = filter (fun s => negb (Uploader.has_record records s)) stems /\
  map fst (snd r) = filter (Uploader.has_record records) stems /\
  (List.length (fst r) + List.length (snd r) = List.length stems)%nat /\
  Forall (fun pair =>
            Uploader.last_record_with_id (fst pair) records
            = Some (snd pair) /\
            In (snd pair) records /\
            exists fields,
              snd pair = PDict fields /\
              dict_get "id" fields = PStr (fst pair))
         (snd r).
Proof.
  intros Hload r. subst r.
  rewrite partition_files_lists. cbn [fst snd app].
  assert (Hlook : forall s,
             Uploader.dict_lookup (PStr s) metadata =
             Uploader.last_record_with_id s records).
  { intros s. exact (load_metadata_lookup records metadata s Hload). }
  split; [|split; [|split]].
  - apply filter_ext. intros s. unfold Uploader.has_record.
    rewrite Hlook. destruct (Uploader.last_record_with_id s records);
      reflexivity.
  - induction stems as [|s rest IH]; [reflexivity|].
    cbn [flat_map filter]. unfold Uploader.has_record at 1.
    rewrite Hlook.
    destruct (Uploader.last_record_with_id s records);
      cbn [app map fst]; rewrite IH; reflexivity.
  - induction stems as [|s rest IH]; [reflexivity|].
    cbn [flat_map filter List.length].
    destruct (Uploader.dict_lookup (PStr s) metadata);
      cbn [app List.length]; lia.
  - induction stems as [|s rest IH]; [constructor|].
    cbn [flat_map]. rewrite Hlook.
    destruct (Uploader.last_record_with_id s records) as [meta|] eqn:Hr;
      [|exact IH].
    cbn [app]. constructor; [|exact IH]. cbn [fst snd].
    split; [exact Hr|]. exact (last_record_with_id_some _ _ _ Hr).
Qed.

Lemma fetched_record_schema_witness :
  Scenario.record_AAA = PNone \/
  exists vid channel duration title description,
    Scenario.record_AAA =
    PDict [("id", vid); ("channel", channel); ("duration", duration);
           ("title", title); ("description", PStr description)] /\
    (truthy channel = true \/ channel = PStr "") /\
    (truthy title = true \/ title = PStr "") /\
    PyStr.strip description = description.
Proof.
  apply (fetched_record_schema Scenario.extract_info Scenario.url_AAA).
  reflexivity.
Defined.

Lemma blank_link_is_published_then_dropped_witness :
  Producer.sent (Producer.main [PStr "   "]) = ["   "%string] /\
  on_message Scenario.extract_info 9 "   " Scenario.start
  = (Ok tt, emit (BasicAck 9) Scenario.start).
Proof.
  apply (blank_link_is_published_then_dropped
           "   " Scenario.extract_info 9 Scenario.start);
    reflexivity.
Defined.

(** ** The upload flow *)

Section UploadProperties.

Import UploadFlow.

Variable post_login : string -> result pyval.
Variable post_register : string -> result pyval.
Variable post_upload : pyval -> pyval -> pyval -> result pyval.
Variable put_file : pyval -> string -> result unit.
Variable put_thumbnail : pyval -> result unit.
Variable run_ffmpeg : string -> result unit.
Variable post_ack : pyval -> pyval -> result pyval.
Variable move_file : string -> result unit.
Variable to_float : pyval -> result unit.
Variable basename : string -> string.

#[local] Abbreviation the_upload_video :=
  (upload_video post_login post_register post_upload put_file put_thumbnail
                run_ffmpeg post_ack to_float basename).
#[local] Abbreviation the_upload_all :=
  (upload_all post_login post_register post_upload put_file put_thumbnail
              run_ffmpeg post_ack move_file to_float basename).

Ltac unfold_upload :=
  unfold ubind, uret, uraise, request, try_finally in *.

Ltac split_innermost :=
  match goal with
  | |- context [match ?x with _ => _ end] =>
      lazymatch x with
      | context [match _ with _ => _ end] => fail
      | _ => destruct x eqn:?
      end
  end.

Ltac split_matches := repeat (cbv beta iota zeta; split_innermost).

Lemma upload_new_calls_app (st st' : state) (new : list call) :
  made st' = made st ++ new -> new_calls st st' = new.
Proof.
  intros H. unfold new_calls. rewrite H.
  rewrite skipn_app, skipn_all, Nat.sub_diag. reflexivity.
Qed.

Lemma logins_app (u : string) (a b : list call) :
  logins u (a ++ b) = (logins u a + logins u b)%nat.
Proof.
  induction a as [|c a IH]; [reflexivity|].
  destruct c; cbn [app logins]; try exact IH.
  destruct (String.eqb username u); rewrite IH; reflexivity.
Qed.

Lemma temp_files_app (a b : list call) :
  temp_files (a ++ b) = (temp_files a + temp_files b)%nat.
Proof.
  induction a as [|c a IH]; [reflexivity|].
  destruct c; cbn [app temp_files]; rewrite IH; reflexivity.
Qed.

Lemma unlinks_app (a b : list call) :
  unlinks (a ++ b) = (unlinks a + unlinks b)%nat.
Proof.
  induction a as [|c a IH]; [reflexivity|].
  destruct c; cbn [app unlinks]; rewrite IH; reflexivity.
Qed.

Lemma moved_app (a b : list call) : moved (a ++ b) = moved a ++ moved b.
Proof.
  induction a as [|c a IH]; [reflexivity|].
  destruct c; cbn [app moved]; rewrite IH; reflexivity.
Qed.

Lemma acknowledged_app (a b : list call) :
  acknowledged post_ack (a ++ b) =
  (acknowledged post_ack a + acknowledged post_ack b)%nat.
Proof.
  induction a as [|c a IH]; [reflexivity|].
  destruct c; cbn [app acknowledged]; try exact IH.
  destruct (ack_accepted post_ack token bridge_id); rewrite IH; reflexivity.
Qed.

Lemma dict_find_app_other (u username : string) (token : pyval)
      (d : list (string * pyval)) :
  u <> username ->
  dict_find u (d ++ [(username, token)]) = dict_find u d.
Proof.
  intros Hne. induction d as [|[k v] d IH]; cbn.
  - destruct (String.eqb u username) eqn:He; [|reflexivity].
    apply String.eqb_eq in He. contradiction.
  - destruct (String.eqb u k); [reflexivity|exact IH].
Qed.

Lemma dict_find_app_new (username : string) (token : pyval)
      (d : list (string * pyval)) :
  dict_find username d = None ->
  dict_find username (d ++ [(username, token)]) = Some token.
Proof.
  induction d as [|[k v] d IH]; cbn; intros H.
  - rewrite String.eqb_refl. reflexivity.
  - destruct (String.eqb username k); [discriminate|exact (IH H)].
Qed.

(** What [get_token] does: one login, one registration when the login
    gives no token, and a token that is never falsy. *)
Lemma get_token_spec (username : string) (st : state) :
  exists r st' auth,
    get_token post_login post_register username st = (r, st') /\
    tokens_by_username st' = tokens_by_username st /\
    made st' = made st ++ auth /\
    (auth = [Login username] \/ auth = [Login username; Register username]) /\
    (forall t, r = Ok t -> truthy t = true).
Proof.
  unfold get_token, auth_login, auth_register, token_of. unfold_upload.
  split_matches;
    do 3 eexists; (split; [reflexivity|]); cbn [tokens_by_username made];
    (split; [reflexivity|]); rewrite <- ?app_assoc;
    (split; [reflexivity|]);
    (split; [cbn; auto|]); intros t' Ht'; try discriminate;
    repeat match goal with
           | H : negb _ = false |- _ => apply negb_false_iff in H
           end;
    congruence.
Qed.

(** X25.  A token that [get_token] returns, from the login or from the
    registration, is never empty or missing: where the server gives none,
    [get_token] raises instead. *)
Theorem get_token_is_never_empty
        (username : string) (st st' : state) (token : pyval) :
  get_token post_login post_register username st = (Ok token, st') ->
  truthy token = true.
Proof.
  intros H.
  destruct (get_token_spec username st) as (r & st1 & auth & Heq & _ & _ & _ & Ht).
  rewrite Heq in H. injection H as -> _. apply Ht. reflexivity.
Qed.

Lemma upload_with_token_spec
      (video_path : string) (meta : list (string * pyval)) (token : pyval)
      (st : state) :
  exists r st' rest,
    upload_with_token post_upload put_file put_thumbnail run_ffmpeg post_ack
                      to_float basename video_path meta token st = (r, st') /\
    tokens_by_username st' = tokens_by_username st /\
    made st' = made st ++ rest /\
    temp_files rest = unlinks rest /\
    (forall u, logins u rest = 0%nat) /\
    moved rest = [] /\
    (r = Ok tt -> acknowledged post_ack rest = 1%nat) /\
    (r = Ok tt \/ (exists tok b, In (Acknowledge tok b) rest) ->
     exists title description bridge_id video_url thumbnail_url,
       rest = [RequestLinks token title description;
               PutVideo video_url video_path; MakeTemp; Ffmpeg video_path;
               PutThumbnail thumbnail_url; Unlink;
               Acknowledge token bridge_id] /\
       links_obtained post_upload token title description
                      bridge_id video_url thumbnail_url /\
       put_file video_url video_path = Ok tt /\
       run_ffmpeg video_path = Ok tt /\
       put_thumbnail thumbnail_url = Ok tt).
Proof.
  unfold upload_with_token, get_upload_links, acknowledge_upload, subscript.
  unfold_upload.
  split_matches;
    do 3 eexists; (split; [reflexivity|]); cbn [tokens_by_username made];
    (split; [reflexivity|]); rewrite <- ?app_assoc;
    (split; [first [reflexivity | symmetry; apply app_nil_r]|]);
    (split; [reflexivity|]); (split; [reflexivity|]);
    (split; [reflexivity|]);
    (split;
     [intros Hok; try discriminate;
      cbn [acknowledged app]; unfold ack_accepted;
      repeat match goal with
             | H : post_ack _ _ = _ |- _ => rewrite H
             | H : negb _ = false |- _ => apply negb_false_iff in H; rewrite H
             end; reflexivity|]);
    intros Hdone;
    try (exfalso; destruct Hdone as [Hok|(? & ? & Hin)];
         [discriminate
         |cbn in Hin;
          repeat (destruct Hin as [Hin|Hin]; try discriminate);
          exact Hin]);
    repeat match goal with u : unit |- _ => destruct u end;
    repeat match goal with
           | H : negb _ = false |- _ => apply negb_false_iff in H
           end;
    do 5 eexists; (split; [reflexivity|]);
    (split; [unfold links_obtained; do 2 eexists; repeat split; eassumption|]);
    repeat split; eassumption.
Qed.

Lemma token_for_spec (username : string) (st : state) :
  exists r st' auth,
    token_for post_login post_register username st = (r, st') /\
    made st' = made st ++ auth /\
    temp_files auth = 0%nat /\ unlinks auth = 0%nat /\ moved auth = [] /\
    acknowledged post_ack auth = 0%nat /\
    (forall tok b, ~ In (Acknowledge tok b) auth) /\
    (forall u, u <> username -> logins u auth = 0%nat) /\
    match dict_find username (tokens_by_username st) with
    | Some tok => r = Ok tok /\ st' = st /\ auth = []
    | None =>
        logins username auth = 1%nat /\
        match r with
        | Ok tok =>
            tokens_by_username st' =
            tokens_by_username st ++ [(username, tok)]
        | Raise _ => tokens_by_username st' = tokens_by_username st
        end
    end.
Proof.
  unfold token_for.
  destruct (dict_find username (tokens_by_username st)) as [tok|] eqn:Hc.
  - exists (Ok tok), st, []. rewrite app_nil_r.
    repeat split; auto.
  - destruct (get_token_spec username st)
      as (r & st1 & auth & Heq & Htok & Hmade & Hauth & _).
    rewrite Heq.
    assert (Hfacts :
              temp_files auth = 0%nat /\ unlinks auth = 0%nat /\
              moved auth = [] /\ acknowledged post_ack auth = 0%nat /\
              (forall tok b, ~ In (Acknowledge tok b) auth) /\
              (forall u, u <> username -> logins u auth = 0%nat) /\
              logins username auth = 1%nat).
    { assert (Hne : forall u, u <> username -> String.eqb username u = false).
      { intros u Hu. apply String.eqb_neq. congruence. }
      destruct Hauth as [-> | ->]; cbn; rewrite String.eqb_refl;
        repeat split; try reflexivity;
        try (intros tok b [H|[H|[]]]; discriminate);
        try (intros tok b [H|[]]; discriminate);
        intros u Hu; rewrite (Hne u Hu); reflexivity. }
    destruct Hfacts as (H1 & H2 & H3 & H4 & H5 & H6 & H7).
    destruct r as [tok|e].
    + eexists (Ok tok), _, auth. split; [reflexivity|].
      cbn [made tokens_by_username]. rewrite Htok.
      repeat split; auto.
    + exists (Raise e), st1, auth. repeat split; auto.
Qed.

Lemma cache_matches_logins_le (st : state) :
  cache_matches_logins st -> forall u, (logins u (made st) <= 1)%nat.
Proof.
  intros H u. rewrite (H u).
  destruct (dict_find u (tokens_by_username st)); lia.
Qed.

Lemma upload_video_spec
      (video_path : string) (meta : list (string * pyval)) (st : state) :
  exists r st' new,
    the_upload_video video_path meta st = (r, st') /\
    made st' = made st ++ new /\
    temp_files new = unlinks new /\
    moved new = [] /\
    (r = Ok tt -> acknowledged post_ack new = 1%nat) /\
    (r = Ok tt \/ (exists tok b, In (Acknowledge tok b) new) ->
     exists before token title description bridge_id video_url thumbnail_url,
       new = before ++
             [RequestLinks token title description;
              PutVideo video_url video_path; MakeTemp; Ffmpeg video_path;
              PutThumbnail thumbnail_url; Unlink;
              Acknowledge token bridge_id] /\
       (forall tok b, ~ In (Acknowledge tok b) before) /\
       links_obtained post_upload token title description
                      bridge_id video_url thumbnail_url /\
       put_file video_url video_path = Ok tt /\
       run_ffmpeg video_path = Ok tt /\
       put_thumbnail thumbnail_url = Ok tt) /\
    (cache_matches_logins st ->
     (forall u, (logins u (made st') <= 1)%nat) /\
     (r = Ok tt -> cache_matches_logins st')).
Proof.
  unfold upload_video.
  destruct (py_or (dict_get "channel" meta) (PStr "unknown"))
    as [ | | |channel| | ];
    try solve [eexists (Raise _), st, []; unfold uraise; rewrite app_nil_r;
               repeat split; auto;
               try discriminate;
               try (intros [H|(? & ? & [])]; discriminate);
               try (apply cache_matches_logins_le; assumption)].
  set (username := Uploader.channel_to_username channel).
  unfold ubind.
  destruct (token_for_spec username st)
    as (r1 & st1 & auth & Heq1 & Hmade1 & Ht1 & Hu1 & Hm1 & Ha1 & Hno1 & Hl1
        & Hcache).
  rewrite Heq1.
  destruct r1 as [token|e].
  - destruct (upload_with_token_spec video_path meta token st1)
      as (r & st2 & rest & Heq2 & Htok2 & Hmade2 & Ht2 & Hl2 & Hm2 & Ha2
          & Hdone).
    rewrite Heq2. exists r, st2, (auth ++ rest).
    split; [reflexivity|].
    split; [rewrite Hmade2, Hmade1, app_assoc; reflexivity|].
    split; [rewrite temp_files_app, unlinks_app; lia|].
    split; [rewrite moved_app, Hm1, Hm2; reflexivity|].
    split; [intros Hok; rewrite acknowledged_app, Ha1, (Ha2 Hok); reflexivity|].
    split.
    + intros Hd.
      assert (Hd' : r = Ok tt \/ (exists tok b, In (Acknowledge tok b) rest)).
      { destruct Hd as [Hok|(tok & b & Hin)]; [left; exact Hok|right].
        apply in_app_or in Hin. destruct Hin as [Hin|Hin].
        - destruct (Hno1 _ _ Hin).
        - exists tok, b. exact Hin. }
      destruct (Hdone Hd') as (title & descr & bid & vurl & turl & -> & Hok).
      exists auth, token, title, descr, bid, vurl, turl.
      split; [reflexivity|]. split; [exact Hno1|exact Hok].
    + intros Hinv.
      assert (Hinv2 : forall u,
                 logins u (made st2) =
                 match dict_find u (tokens_by_username st2) with
                 | Some _ => 1%nat
                 | None => 0%nat
                 end).
      { intros u. rewrite Hmade2, Hmade1, Htok2, !logins_app, (Hl2 u), (Hinv u).
        destruct (dict_find username (tokens_by_username st)) as [tk|] eqn:Hc.
        - destruct Hcache as (_ & -> & ->). cbn. lia.
        - destruct Hcache as (Hlog & ->).
          destruct (string_dec u username) as [->|Hne].
          + rewrite Hc, Hlog, (dict_find_app_new _ _ _ Hc). lia.
          + rewrite (Hl1 u Hne), (dict_find_app_other _ _ _ _ Hne). lia. }
      split; [|intros _; exact Hinv2].
      apply cache_matches_logins_le. exact Hinv2.
  - exists (Raise e), st1, auth.
    split; [reflexivity|]. split; [exact Hmade1|].
    split; [lia|]. split; [exact Hm1|].
    split; [discriminate|].
    split.
    + intros [H|(tok & b & Hin)]; [discriminate|destruct (Hno1 _ _ Hin)].
    + intros Hinv. split; [|discriminate].
      intros u. rewrite Hmade1, logins_app, (Hinv u).
      destruct (dict_find username (tokens_by_username st)) as [tk|] eqn:Hc.
      * destruct Hcache as (Hr & _). discriminate.
      * destruct Hcache as (Hlog & _).
        destruct (string_dec u username) as [->|Hne].
        -- rewrite Hc, Hlog. lia.
        -- rewrite (Hl1 u Hne).
           destruct (dict_find u (tokens_by_username st)); lia.
Qed.

(** X26.  Whatever happens while a video is uploaded, the temporary
    thumbnail file is removed: among the calls of one [upload_video] there
    are as many removals as temporary files made. *)
Theorem thumbnail_file_is_always_removed
        (video_path : string) (meta : list (string * pyval)) (st : state) :
  let st' := snd (the_upload_video video_path meta st) in
  temp_files (new_calls st st') = unlinks (new_calls st st').
Proof.
  intros st'. subst st'.
  destruct (upload_video_spec video_path meta st)
    as (r & st1 & new & Heq & Hmade & Htemp & _).
  rewrite Heq. cbn [snd]. rewrite (upload_new_calls_app _ _ _ Hmade).
  exact Htemp.
Qed.

(** X27.  The server is told that an upload is complete only after the
    request for links was answered with success, the video was put to the
    url of that answer, the thumbnail was extracted and the thumbnail was
    put to the thumbnail url of that answer, all successfully and in this
    order; the acknowledgment carries the bridge id of that answer and the
    token used for the links. *)
Theorem acknowledged_only_after_both_uploads
        (video_path : string) (meta : list (string * pyval)) (st : state)
        (tok b : pyval) :
  let st' := snd (the_upload_video video_path meta st) in
  In (Acknowledge tok b) (new_calls st st') ->
  exists before title description video_url thumbnail_url,
    new_calls st st' =
    before ++ [RequestLinks tok title description;
               PutVideo video_url video_path; MakeTemp; Ffmpeg video_path;
               PutThumbnail thumbnail_url; Unlink; Acknowledge tok b] /\
    links_obtained post_upload tok title description
                   b video_url thumbnail_url /\
    put_file video_url video_path = Ok tt /\
    run_ffmpeg video_path = Ok tt /\
    put_thumbnail thumbnail_url = Ok tt.
Proof.
  intros st'. subst st'.
  destruct (upload_video_spec video_path meta st)
    as (r & st1 & new & Heq & Hmade & _ & _ & _ & Hdone & _).
  rewrite Heq. cbn [snd]. rewrite (upload_new_calls_app _ _ _ Hmade).
  intros Hin.
  destruct (Hdone (or_intror (ex_intro _ tok (ex_intro _ b Hin))))
    as (before & token & title & descr & bid & vurl & turl & -> & Hno & Hok).
  assert (Hsame : tok = token /\ b = bid).
  { apply in_app_or in Hin. destruct Hin as [Hin|Hin].
    - destruct (Hno _ _ Hin).
    - cbn in Hin.
      repeat (destruct Hin as [Hin|Hin]; try discriminate).
      + injection Hin as -> ->. split; reflexivity.
      + destruct Hin. }
  destruct Hsame as [-> ->].
  exists before, title, descr, vurl, turl. split; [reflexivity|exact Hok].
Qed.

Lemma upload_all_spec (files : list (string * list (string * pyval))) :
  forall st : state,
  exists r st' new k,
    the_upload_all files st = (r, st') /\
    made st' = made st ++ new /\
    moved new = firstn k (map fst files) /\
    (k <= List.length files)%nat /\
    (r = Ok tt -> k = List.length files) /\
    (k <= acknowledged post_ack new)%nat /\
    temp_files new = unlinks new /\
    (cache_matches_logins st -> forall u, (logins u (made st') <= 1)%nat).
Proof.
  induction files as [|[video_path meta] rest IH]; intros st.
  - exists (Ok tt), st, [], 0%nat. cbn. rewrite app_nil_r.
    repeat split; auto. apply cache_matches_logins_le.
  - cbn [upload_all].
    destruct (announce meta) as [[]|e].
    + unfold ubind at 1.
      destruct (upload_video_spec video_path meta st)
        as (r1 & st1 & new1 & Heq1 & Hmade1 & Htemp1 & Hmoved1 & Hack1 & _
            & Hinv1).
      rewrite Heq1. destruct r1 as [[]|e1].
      * unfold ubind, request.
        set (st2 := State (tokens_by_username st1)
                          (made st1 ++ [Move video_path])).
        destruct (move_file video_path) as [[]|e2].
        -- destruct (IH st2)
             as (r & st' & new & k & Heq & Hmade & Hmoved & Hk & Hall & Hacks
                 & Htemp & Hinv).
           rewrite Heq.
           exists r, st', (new1 ++ [Move video_path] ++ new), (S k).
           split; [reflexivity|].
           split.
           { rewrite Hmade. subst st2. cbn [made]. rewrite Hmade1.
             rewrite <- !app_assoc. reflexivity. }
           split.
           { rewrite !moved_app, Hmoved1, Hmoved. reflexivity. }
           split; [cbn; lia|].
           split; [intros Hok; cbn; rewrite (Hall Hok); reflexivity|].
           split.
           { rewrite !acknowledged_app, (Hack1 eq_refl). cbn. lia. }
           split.
           { rewrite !temp_files_app, !unlinks_app, Htemp1, Htemp. reflexivity. }
           intros Hc. apply Hinv.
           destruct (Hinv1 Hc) as [_ Hc1]. specialize (Hc1 eq_refl).
           intros u. subst st2. cbn [made tokens_by_username].
           rewrite logins_app, (Hc1 u). cbn. lia.
        -- exists (Raise e2), st2, (new1 ++ [Move video_path]), 1%nat.
           split; [reflexivity|].
           split.
           { subst st2. cbn [made]. rewrite Hmade1, <- app_assoc.
             reflexivity. }
           split; [rewrite moved_app, Hmoved1; reflexivity|].
           split; [cbn; lia|]. split; [discriminate|].
           split; [rewrite acknowledged_app, (Hack1 eq_refl); cbn; lia|].
           split; [rewrite temp_files_app, unlinks_app, Htemp1; reflexivity|].
           intros Hc u. destruct (Hinv1 Hc) as [Hle _].
           subst st2. cbn [made]. rewrite logins_app. cbn.
           specialize (Hle u). lia.
      * exists (Raise e1), st1, new1, 0%nat.
        split; [reflexivity|]. split; [exact Hmade1|].
        split; [exact Hmoved1|]. split; [cbn; lia|].
        split; [discriminate|]. split; [lia|]. split; [exact Htemp1|].
        intros Hc. apply (Hinv1 Hc).
    + exists (Raise e), st, [], 0%nat. unfold uraise. rewrite app_nil_r.
      repeat split; auto; try discriminate; try (cbn; lia).
      apply cache_matches_logins_le.
Qed.

(** X28.  The files of a folder are moved to the done directory in the
    order of the list and only as far as the first failure, and never more
    files are moved than uploads were acknowledged by the server. *)
Theorem files_move_in_order_after_acknowledgment
        (files : list (string * list (string * pyval))) (st : state) :
  let r := fst (the_upload_all files st) in
  let st' := snd (the_upload_all files st) in
  exists k,
    moved (new_calls st st') = firstn k (map fst files) /\
    (r = Ok tt -> k = List.length files) /\
    (k <= acknowledged post_ack (new_calls st st'))%nat.
Proof.
  intros r st'. subst r st'.
  destruct (upload_all_spec files st)
    as (r & st1 & new & k & Heq & Hmade & Hmoved & _ & Hall & Hacks & _).
  rewrite Heq. cbn [fst snd]. rewrite (upload_new_calls_app _ _ _ Hmade).
  exists k. repeat split; assumption.
Qed.

(** X29.  During the upload of a folder no user name is sent to the login
    endpoint more than once: a token obtained for a channel is reused for
    every later video of that channel. *)
Theorem one_login_per_username
        (files : list (string * list (string * pyval))) (username : string) :
  (logins username (made (snd (the_upload_all files initial))) <= 1)%nat.
Proof.
  destruct (upload_all_spec files initial)
    as (r & st1 & new & k & Heq & _ & _ & _ & _ & _ & _ & Hinv).
  rewrite Heq. cbn [snd]. apply Hinv.
  intros u. reflexivity.
Qed.

End UploadProperties.

(** ** The further properties on concrete inputs *)


Lemma halt_ends_the_run_witness :
  exists evs0 tag,
    new_calls Scenario.start
      (snd (start_consuming Scenario.extract_info Scenario.queue
                            Scenario.start))
    = evs0 ++ [BasicNack tag true; StopConsuming] /\
    existsb is_halt_call evs0 = false /\
    In tag (map fst Scenario.queue).
Proof.
  apply (halt_ends_the_run Scenario.extract_info Scenario.queue
                           Scenario.start).
  - reflexivity.
  - reflexivity.
Defined.


Lemma unusable_store_is_replaced_witness :
  metadata_json
    (snd (on_message Scenario.extract_info 1 Scenario.url_AAA
                     (fresh Malformed true [])))
  = Document (PList [Scenario.record_AAA]).
Proof.
  apply (unusable_store_is_replaced Scenario.extract_info 1 Scenario.url_AAA
           (fresh Malformed true []) Scenario.record_AAA).
  - right. right. right. reflexivity.
  - reflexivity.
  - reflexivity.
  - reflexivity.
  - reflexivity.
Defined.

Lemma normalized_youtube_url_lists_videos_witness :
  PyStr.contains "/videos"
    (Scraper.normalize_channel_url "  https://www.youtube.com/@somebody/ ")
  = true.
Proof.
  apply normalized_youtube_url_lists_videos. reflexivity.
Defined.

Lemma scraped_videos_have_urls_witness :
  Forall (fun v =>
            exists url duration channel,
              v = PDict [("url", url); ("duration", duration);
                         ("channel", channel)] /\
              truthy url = true)
         [PDict [("url", PStr (watch_url "AAA")); ("duration", PInt 12);
                 ("channel", PStr "somebody")]] /\
  exists entries,
    py_or (dict_get "entries"
             [("channel", PStr "somebody");
              ("entries",
               PList [PNone;
                      PDict [("id", PStr "AAA"); ("duration", PInt 12)];
                      PDict [("title", PStr "no id and no url")]])])
          (PList [])
    = PList entries /\
    (1 <= List.length entries)%nat.
Proof.
  apply (scraped_videos_have_urls
           (fun _ => ""%string)
           [("channel", PStr "somebody");
            ("entries",
             PList [PNone;
                    PDict [("id", PStr "AAA"); ("duration", PInt 12)];
                    PDict [("title", PStr "no id and no url")]])]).
  reflexivity.
Defined.

Lemma scraped_id_survives_the_queue_witness :
  exists v url,
    Scraper.scrape_entry (fun _ => ""%string) (PStr "somebody")
      (PDict [("id", PStr "AAA"); ("duration", PInt 12)]) = Ok (Some v) /\
    v = PDict [("url", PStr url);
               ("duration",
                dict_get "duration" [("id", PStr "AAA"); ("duration", PInt 12)]);
               ("channel",
                py_or (dict_get "channel"
                         [("id", PStr "AAA"); ("duration", PInt 12)])
                      (PStr "somebody"))] /\
    url = watch_url "AAA" /\
    video_id_from_url url = Some (PyStr.strip "AAA").
Proof.
  apply (scraped_id_survives_the_queue
           (fun _ => ""%string) (PStr "somebody")
           [("id", PStr "AAA"); ("duration", PInt 12)] "AAA");
    reflexivity.
Defined.

Lemma load_metadata_last_record_wins_witness :
  Uploader.dict_lookup (PStr "AAA")
    [(PStr "AAA", PDict [("id", PStr "AAA"); ("title", PStr "second take")])]
  = Uploader.last_record_with_id "AAA" UploadScenario.records.
Proof.
  apply (load_metadata_last_record_wins UploadScenario.records). reflexivity.
Defined.

Lemma files_are_paired_with_their_records_witness :
  fst (Uploader.partition_files ["AAA"; "BBB"]%string
         [(PStr "AAA",
           PDict [("id", PStr "AAA"); ("title", PStr "second take")])]
         [] [])
  = filter (fun s => negb (Uploader.has_record UploadScenario.records s))
           ["AAA"; "BBB"]%string.
Proof.
  apply (files_are_paired_with_their_records UploadScenario.records
           [(PStr "AAA",
             PDict [("id", PStr "AAA"); ("title", PStr "second take")])]
           ["AAA"; "BBB"]%string).
  reflexivity.
Defined.

Lemma get_token_is_never_empty_witness :
  truthy (PStr "token-1") = true.
Proof.
  apply (get_token_is_never_empty
           UploadScenario.post_login UploadScenario.post_register
           "somebody" UploadFlow.initial
           (UploadFlow.State [] [UploadFlow.Login "somebody"])
           (PStr "token-1")).
  reflexivity.
Defined.

Lemma acknowledged_only_after_both_uploads_witness :
  exists before title description video_url thumbnail_url,
    UploadFlow.new_calls UploadFlow.initial
      (snd (UploadScenario.upload_video "AAA.mp4"
              [("id", PStr "AAA"); ("channel", PStr "Some Body")]
              UploadFlow.initial))
    = before ++
      [UploadFlow.RequestLinks (PStr "token-1") title description;
       UploadFlow.PutVideo video_url "AAA.mp4"; UploadFlow.MakeTemp;
       UploadFlow.Ffmpeg "AAA.mp4"; UploadFlow.PutThumbnail thumbnail_url;
       UploadFlow.Unlink;
       UploadFlow.Acknowledge (PStr "token-1") (PStr "bridge-1")] /\
    UploadFlow.links_obtained UploadScenario.post_upload
      (PStr "token-1") title description
      (PStr "bridge-1") video_url thumbnail_url /\
    UploadScenario.put_file video_url "AAA.mp4" = Ok tt /\
    UploadScenario.run_ffmpeg "AAA.mp4" = Ok tt /\
    UploadScenario.put_thumbnail thumbnail_url = Ok tt.
Proof.
  apply (acknowledged_only_after_both_uploads
           UploadScenario.post_login UploadScenario.post_register
           UploadScenario.post_upload UploadScenario.put_file
           UploadScenario.put_thumbnail UploadScenario.run_ffmpeg
           UploadScenario.post_ack UploadScenario.to_float
           UploadScenario.basename
           "AAA.mp4" [("id", PStr "AAA"); ("channel", PStr "Some Body")]
           UploadFlow.initial (PStr "token-1") (PStr "bridge-1")).
  vm_compute. do 7 right. left. reflexivity.
Defined.

(** ** The exit status of a run on payloads given as bytes *)

Section CallbackProperties.

Variable extract_info : string -> result pyval.

Lemma start_consuming_bytes_stopped
      (deliveries : list (nat * payload)) (w : world) :
  consuming w = false ->
  start_consuming_bytes extract_info deliveries w = (Ok tt, w).
Proof.
  intros H. destruct deliveries as [|[tag body] rest]; cbn.
  - reflexivity.
  - rewrite H. reflexivity.
Qed.

Lemma start_consuming_bytes_text
      (tag : nat) (text : string) (rest : list (nat * payload)) (w : world) :
  consuming w = true ->
  start_consuming_bytes extract_info ((tag, Utf8 text) :: rest) w =
  start_consuming_bytes extract_info rest
    (snd (on_message extract_info tag text w)).
Proof.
  intros H. cbn [start_consuming_bytes]. rewrite H.
  unfold on_message_callback. cbn [decode].
  pose proof (on_message_returns extract_info tag text w) as Hr.
  destruct (on_message extract_info tag text w) as [r w'].
  cbn [fst snd] in *. rewrite Hr. reflexivity.
Qed.

(** The loop and the flags at the end of a run, by the way the run ends. *)
Lemma start_consuming_bytes_ending (deliveries : list (nat * payload)) :
  forall w : world,
    consuming w = true ->
    timeout_occurred w = false ->
    rate_limit_occurred w = false ->
    let r := start_consuming_bytes extract_info deliveries w in
    match run_ending extract_info deliveries w with
    | Halted Timeout =>
        fst r = Ok tt /\ timeout_occurred (snd r) = true
    | Halted RateLimited =>
        fst r = Ok tt /\ timeout_occurred (snd r) = false /\
        rate_limit_occurred (snd r) = true
    | Halted Other => False
    | Escaped e =>
        fst r = Raise e /\ timeout_occurred (snd r) = false /\
        rate_limit_occurred (snd r) = false
    | Drained =>
        fst r = Ok tt /\ timeout_occurred (snd r) = false /\
        rate_limit_occurred (snd r) = false
    end.
Proof.
  induction deliveries as [|[tag body] rest IH]; intros w Hc Ht Hr.
  - cbn. auto.
  - cbv zeta. cbn [run_ending].
    destruct body as [text|]; cbn [decode].
    + rewrite (start_consuming_bytes_text _ _ _ _ Hc).
      destruct (PyStr.nonempty (PyStr.strip text)) eqn:Hu.
      * rewrite (delivery_verdict_nonempty _ _ _ Hu).
        pose proof (on_message_cases extract_info tag text w Hu) as H.
        cbv zeta in H. destruct H as (_ & _ & H).
        destruct (fst (fetch_and_store extract_info (PyStr.strip text) w))
          as [[]|e].
        -- destruct H as (_ & _ & Hc' & Ht' & Hr').
           apply IH; congruence.
        -- destruct (classify e);
             destruct H as (_ & _ & Hc' & Ht' & Hr').
           ++ rewrite (start_consuming_bytes_stopped _ _ Hc'). cbn. auto.
           ++ rewrite (start_consuming_bytes_stopped _ _ Hc'). cbn.
              repeat split; congruence.
           ++ apply IH; congruence.
      * rewrite (delivery_verdict_empty _ _ _ Hu).
        rewrite (on_message_empty _ _ _ _ Hu). cbn [snd].
        apply IH; assumption.
    + cbn [start_consuming_bytes]. rewrite Hc.
      unfold on_message_callback, raise. cbn. auto.
Qed.

(** C7, amended.  When the consuming loop returns, the exit status is 1 if
    the halt reason is [Timeout] or [RateLimited] and 0 if the deliveries
    ran out without either; when an exception leaves the loop, as for a
    payload that is not valid UTF-8, no halt reason is recorded and the
    exit status is 1. *)
Theorem exit_status_of_a_run
        (deliveries : list (nat * payload))
        (store : file) (writable : bool) (log : list log_line) :
  let w0 := fresh store writable log in
  let status := fst (run_consumer_bytes extract_info deliveries w0) in
  let w' := snd (run_consumer_bytes extract_info deliveries w0) in
  match run_ending extract_info deliveries w0 with
  | Halted Timeout | Halted RateLimited => status = 1%Z
  | Halted Other => False
  | Escaped _ =>
      status = 1%Z /\
      timeout_occurred w' = false /\ rate_limit_occurred w' = false
  | Drained => status = 0%Z
  end.
Proof.
  intros w0 status w'. subst status w'.
  pose proof (start_consuming_bytes_ending deliveries w0
                eq_refl eq_refl eq_refl) as H.
  cbv zeta in H. unfold run_consumer_bytes.
  destruct (start_consuming_bytes extract_info deliveries w0) as [r w1].
  cbn [fst snd] in H.
  destruct (run_ending extract_info deliveries w0) as [[ | | ]|e| ].
  - destruct H as [-> Ht]. rewrite Ht. reflexivity.
  - destruct H as (-> & Ht & Hr). rewrite Ht, Hr. reflexivity.
  - exact H.
  - destruct H as (-> & Ht & Hr). cbn. auto.
  - destruct H as (-> & Ht & Hr). rewrite Ht, Hr. reflexivity.
Qed.

(** On payloads that decode, the loop on bytes is the loop on texts. *)
Lemma start_consuming_bytes_decoded (deliveries : list (nat * string)) :
  forall w : world,
    start_consuming_bytes extract_info
      (map (fun d => (fst d, Utf8 (snd d))) deliveries) w
    = start_consuming extract_info deliveries w.
Proof.
  induction deliveries as [|[tag text] rest IH]; intros w; [reflexivity|].
  cbn [map fst snd start_consuming_bytes start_consuming].
  destruct (consuming w); [|reflexivity].
  unfold on_message_callback. cbn [decode].
  destruct (on_message extract_info tag text w) as [[[]|e] w'];
    [apply IH|reflexivity].
Qed.

(** X8.  A delivery whose payload decodes is resolved exactly once and
    under its own tag, by one ack or by one nack with requeue; a delivery
    whose payload is not valid UTF-8 is not resolved at all: the callback
    raises before its [try] and makes no call. *)
Theorem delivery_resolved_once_if_decodable
        (tag : nat) (body : payload) (w : world) :
  let r := on_message_callback extract_info tag body w in
  match decode body with
  | Ok _ =>
      fst r = Ok tt /\
      (filter is_resolution (new_calls w (snd r)) = [BasicAck tag] \/
       filter is_resolution (new_calls w (snd r)) = [BasicNack tag true])
  | Raise e => r = (Raise e, w)
  end.
Proof.
  intros r. subst r. unfold on_message_callback.
  destruct (decode body) as [text|e]; [|reflexivity].
  split; [apply on_message_returns|].
  destruct (on_message_extends extract_info tag text w)
    as (evs & lines & Hcalls & _ & _ & H).
  rewrite (new_calls_app _ _ _ Hcalls).
  destruct H as [(_ & [->| ->])|(_ & ->)]; cbn; auto.
Qed.

End CallbackProperties.

(** C7 as the specification states it fails on a payload that is not valid
    UTF-8: the loop ends by the exception of line 166, there is no halt
    reason, and the exit status is 1. *)
Lemma exit_zero_unless_halted_fails :
  ~ exit_zero_unless_halted Scenario.extract_info
      [(1, Utf8 Scenario.url_AAA); (2, NotUtf8Payload)] Scenario.start.
Proof.
  unfold exit_zero_unless_halted. vm_compute. discriminate.
Qed.
